(** * Retrieval dedup and generation orchestration of the newsletter search API

    A shallow embedding of
    - [src/api/services/search_service.py] (the two deduplicating queries),
    - [src/api/models/provider_models.py] (the model registry),
    - [src/api/services/providers/*_service.py] (the three backend adapters),
    - [src/api/services/generation_service.py] (batch and streaming orchestration),
    followed by the properties the specification states about them. *)

From Stdlib Require Import ZArith QArith Ascii String.
From stdpp Require Import gmap strings list.

Local Open Scope string_scope.
Local Open Scope list_scope.
Local Open Scope Z_scope.

(** ** Python values used by the code *)

Module Py.

(** Truthiness of a [str]: only the empty string is falsy. *)
Definition truthy (s : string) : bool :=
  match s with
  | EmptyString => false
  | String _ _ => true
  end.

(** Truthiness of a [str | None]. *)
Definition truthy_opt (o : option string) : bool :=
  match o with
  | Some s => truthy s
  | None => false
  end.

(** [a or b] where [a : str | None] and [b : str]. *)
Definition or_else (a : option string) (b : string) : string :=
  match a with
  | Some s => if truthy s then s else b
  | None => b
  end.

(** [str.lower()] on byte strings: the letters A-Z are mapped to a-z, every
    other byte (non-ASCII text included) is left as it is. *)
Definition lower_ascii (c : ascii) : ascii :=
  let n := nat_of_ascii c in
  if (Nat.leb 65 n && Nat.leb n 90)%bool then ascii_of_nat (n + 32) else c.

Fixpoint lower (s : string) : string :=
  match s with
  | EmptyString => EmptyString
  | String c rest => String (lower_ascii c) (lower rest)
  end.

(** [l[:stop]] for an integer [stop]; a negative [stop] counts from the end. *)
Definition slice_to {A : Type} (l : list A) (stop : Z) : list A :=
  if 0 <=? stop then take (Z.to_nat stop) l
  else take (Z.to_nat (Z.of_nat (length l) + stop)) l.

End Py.

(** ** search_service.py *)

Module Search.

(** A Qdrant point id is an unsigned integer or a UUID string. *)
Inductive PointId : Type :=
| IdInt (n : Z)
| IdUuid (s : string).

#[global] Instance PointId_eq_dec : EqDecision PointId.
Proof. solve_decision. Defined.

#[global] Instance PointId_countable : Countable PointId :=
  inj_countable'
    (λ i, match i with IdInt n => inl n | IdUuid s => inr s end)
    (λ x, match x with inl n => IdInt n | inr s => IdUuid s end)
    (λ i, match i with IdInt _ => eq_refl | IdUuid _ => eq_refl end).

(** The payload keys the service reads; [None] is a key that is absent. *)
Record Payload : Type := mkPayload {
  p_title : option string;
  p_feed_author : option string;
  p_feed_name : option string;
  p_article_authors : option (list string);
  p_url : option string;
  p_chunk_text : option string
}.

Definition empty_payload : Payload := mkPayload None None None None None None.

(** One element of [response.points]. The score is only carried along. *)
Record ScoredPoint : Type := mkPoint {
  id : PointId;
  payload : option Payload;
  score : Q
}.

Record SearchResult : Type := mkResult {
  title : string;
  feed_author : option string;
  feed_name : option string;
  article_author : option (list string);
  url : option string;
  chunk_text : option string;
  r_score : Q
}.

(** The text inputs of a query; the filter they build is passed to the index
    unchanged and is not inspected afterwards. *)
Record Query : Type := mkQuery {
  query_text : string;
  q_feed_author : option string;
  q_feed_name : option string;
  q_title_keywords : option string
}.

(** The vector store: [query_points] for a query and a fetch limit returns the
    fused ranking [response.points]. *)
Definition Index : Type := Query → Z → list ScoredPoint.

(** [payload = point.payload or {}]. *)
Definition payload_or_empty (p : ScoredPoint) : Payload :=
  default empty_payload (payload p).

(** The [SearchResult(...)] built in both loops, for a given title. *)
Definition make_result (t : string) (p : ScoredPoint) : SearchResult :=
  let pl := payload_or_empty p in
  mkResult t (p_feed_author pl) (p_feed_name pl) (p_article_authors pl)
           (p_url pl) (p_chunk_text pl) (score p).

(** [payload.get("title", "")]. *)
Definition result_of_point (p : ScoredPoint) : SearchResult :=
  make_result (default "" (p_title (payload_or_empty p))) p.

(** The loop of [query_with_filters] over [response.points], with its two
    variables [seen_ids] and [results]. *)
Fixpoint ids_loop (points : list ScoredPoint) (seen_ids : gset PointId)
    (results : list SearchResult) : list SearchResult :=
  match points with
  | [] => results
  | point :: rest =>
      if decide (id point ∈ seen_ids) then ids_loop rest seen_ids results
      else ids_loop rest ({[id point]} ∪ seen_ids) (results ++ [result_of_point point])
  end.

Definition query_with_filters (index : Index) (q : Query) (limit : Z)
    : list SearchResult :=
  let fetch_limit := Z.max 1 limit * 100 in
  let points := index q fetch_limit in
  let results := ids_loop points ∅ [] in
  Py.slice_to results limit.

(** The loop of [query_unique_titles]: a point without a truthy title or with
    a title already seen is skipped; the loop breaks as soon as
    [len(results) >= limit] after an append. *)
Fixpoint titles_loop (limit : Z) (points : list ScoredPoint)
    (seen_titles : gset string) (results : list SearchResult)
    : list SearchResult :=
  match points with
  | [] => results
  | point :: rest =>
      match p_title (payload_or_empty point) with
      | Some t =>
          if (negb (Py.truthy t) || bool_decide (t ∈ seen_titles))%bool
          then titles_loop limit rest seen_titles results
          else
            let results' := results ++ [make_result t point] in
            if Z.of_nat (length results') >=? limit then results'
            else titles_loop limit rest ({[t]} ∪ seen_titles) results'
      | None => titles_loop limit rest seen_titles results
      end
  end.

Definition query_unique_titles (index : Index) (q : Query) (limit : Z)
    : list SearchResult :=
  let fetch_limit := Z.max 1 limit * 280 in
  let points := index q fetch_limit in
  titles_loop limit points ∅ [].

(** The points a run of [ids_loop] keeps: the ghost counterpart of [results]
    that still carries the point id. *)
Fixpoint ids_kept (points : list ScoredPoint) (seen_ids : gset PointId)
    : list ScoredPoint :=
  match points with
  | [] => []
  | point :: rest =>
      if decide (id point ∈ seen_ids) then ids_kept rest seen_ids
      else point :: ids_kept rest ({[id point]} ∪ seen_ids)
  end.

(** The points a run of [titles_loop] keeps, given the current [len(results)]. *)
Fixpoint titles_kept (limit : Z) (points : list ScoredPoint)
    (seen_titles : gset string) (n : nat) : list ScoredPoint :=
  match points with
  | [] => []
  | point :: rest =>
      match p_title (payload_or_empty point) with
      | Some t =>
          if (negb (Py.truthy t) || bool_decide (t ∈ seen_titles))%bool
          then titles_kept limit rest seen_titles n
          else if Z.of_nat (S n) >=? limit then [point]
          else point :: titles_kept limit rest ({[t]} ∪ seen_titles) (S n)
      | None => titles_kept limit rest seen_titles n
      end
  end.

End Search.


(** ** provider_models.py *)

Module Registry.

Inductive ProviderSort : Type := latency.

Definition provider_sort_value (s : ProviderSort) : string :=
  match s with latency => "latency" end.

Record ModelConfig : Type := mkConfig {
  primary_model : string;
  candidate_models : list string;
  provider_sort : ProviderSort;
  stream : bool;
  max_completion_tokens : Z;
  temperature : Q
}.

(** The field defaults of [ModelConfig]. *)
Definition config_with (primary : string) (candidates : list string) : ModelConfig :=
  mkConfig primary candidates latency false 5000 0%Q.

(** Exceptions: the [ValueError] the code raises itself, and any other
    exception class a collaborator may raise. *)
Inductive PyExn : Type :=
| ValueError (msg : string)
| OtherExn (class_name msg : string).

Record ModelRegistry : Type := mkRegistry {
  models : gmap string ModelConfig
}.

Definition get_config (self : ModelRegistry) (provider : string)
    : PyExn + ModelConfig :=
  let provider_lower := Py.lower provider in
  match models self !! provider_lower with
  | None => inl (ValueError ("ModelConfig not found for provider: " +:+ provider))
  | Some config => inr config
  end.

(** The default registry; the "openai" entry is commented out in the source. *)
Definition MODEL_REGISTRY : ModelRegistry :=
  mkRegistry
    (<["openrouter" :=
         config_with "openai/gpt-oss-20b:free"
           ["cognitivecomputations/dolphin-mistral-24b-venice-edition:free";
            "nvidia/nemotron-nano-9b-v2:free"]]>
     (<["huggingface" := config_with "deepseek-ai/DeepSeek-R1" []]> ∅)).

End Registry.

(** ** Effects: awaited calls, generators and exceptions *)

Module Effects.
Import Registry.

(** The events of the uniform protocol. A generator of the source yields
    [str]; here each yield carries the tag of the yield statement it comes
    from, and [wire] gives back the string that statement yields. *)
Inductive CompletionEvent : Type :=
| Text (content : string)
| ModelSelected (model_name : string)
| Truncated
| Error.

Definition wire (e : CompletionEvent) : string :=
  match e with
  | Text content => content
  | ModelSelected model_name => "__model_used__:" +:+ model_name
  | Truncated => "__truncated__"
  | Error => "__error__"
  end.

Inductive Client : Type := async_openai_client | async_openrouter_client | hf_client.

Record Message : Type := mkMessage { role : string; content : string }.

(** [extra_body] of an OpenRouter request. *)
Record ExtraBody : Type := mkExtra {
  eb_provider_sort : string;
  eb_models : option (list string)
}.

(** The keyword arguments of [client.chat.completions.create]. *)
Record ChatRequest : Type := mkRequest {
  rq_client : Client;
  rq_model : string;
  rq_messages : list Message;
  rq_temperature : Q;
  rq_max_tokens : Z;
  rq_extra_body : option ExtraBody;
  rq_stream : bool
}.

(** A non-streaming response, reduced to what the adapters read:
    [choices[0].message.content], [choices[0].model], [resp.model] and
    [choices[0].native_finish_reason]. *)
Record Completion : Type := mkCompletion {
  message_content : option string;
  choice_model : option string;
  response_model : option string;
  native_finish_reason : option string
}.

(** One chunk of a streamed response: [chunk.model],
    [chunk.choices[0].delta.content] and [chunk.choices[0].finish_reason]
    (every chunk is taken to carry a first choice). *)
Record Chunk : Type := mkChunk {
  chunk_model : option string;
  delta_content : option string;
  finish_reason : option string
}.

(** A streamed response: the chunks it delivers, then either a normal end
    ([None]) or an exception raised by the next read. *)
Record ChunkStream : Type := mkStream {
  chunks : list Chunk;
  failure : option PyExn
}.

(** The collaborators of the generation layer. *)
Record World : Type := mkWorld {
  build_research_prompt : list Search.SearchResult → string → string;
  chat_create : ChatRequest → PyExn + Completion;
  chat_create_stream : ChatRequest → PyExn + ChunkStream;
  evaluate_metrics : string → string → PyExn + unit
}.

(** What leaves the process. *)
Inductive Effect : Type :=
| ChatCreate (r : ChatRequest)
| EvaluateMetrics (answer prompt : string).

(** A computation run to its end: what it yielded, the calls it made, and
    whether it returned or raised. *)
Record Run (Y A : Type) : Type := mkRun {
  yielded : list Y;
  calls : list Effect;
  outcome : PyExn + A
}.
Arguments mkRun {Y A} _ _ _.
Arguments yielded {Y A} _.
Arguments calls {Y A} _.
Arguments outcome {Y A} _.

#[global] Instance run_ret {Y : Type} : MRet (Run Y) :=
  λ A a, mkRun [] [] (inr a).

#[global] Instance run_bind {Y : Type} : MBind (Run Y) :=
  λ A B k m,
    match outcome m with
    | inl e => mkRun (yielded m) (calls m) (inl e)
    | inr a =>
        let r := k a in
        mkRun (yielded m ++ yielded r) (calls m ++ calls r) (outcome r)
    end.

Definition raise {Y A : Type} (e : PyExn) : Run Y A := mkRun [] [] (inl e).

Definition yield_ {Y : Type} (y : Y) : Run Y unit := mkRun [y] [] (inr ()).

(** [try: body except Exception as e: handler e]. *)
Definition try_except {Y A : Type} (body : Run Y A) (handler : PyExn → Run Y A)
    : Run Y A :=
  match outcome body with
  | inl e =>
      let r := handler e in
      mkRun (yielded body ++ yielded r) (calls body ++ calls r) (outcome r)
  | inr _ => body
  end.

(** A coroutine never yields. *)
Abbreviation Coro := (Run Empty_set).

Definition await {Y A : Type} (c : Coro A) : Run Y A :=
  mkRun [] (calls c) (outcome c).

Definition of_result {Y A : Type} (r : PyExn + A) : Run Y A := mkRun [] [] r.

(** The three awaited calls. *)
Definition call_create (W : World) (r : ChatRequest) : Coro Completion :=
  mkRun [] [ChatCreate r] (chat_create W r).

Definition call_create_stream (W : World) (r : ChatRequest) : Coro ChunkStream :=
  mkRun [] [ChatCreate r] (chat_create_stream W r).

Definition call_evaluate_metrics (W : World) (answer prompt : string) : Coro unit :=
  mkRun [] [EvaluateMetrics answer prompt] (evaluate_metrics W answer prompt).

(** [async for chunk in stream: body], threading the loop's variables; the
    read after the last chunk either stops the loop or raises. *)
Fixpoint async_for {Y S : Type} (chunks : list Chunk) (failure : option PyExn)
    (body : Chunk → S → Run Y S) (s : S) : Run Y S :=
  match chunks with
  | [] => match failure with
          | None => mret s
          | Some e => raise e
          end
  | chunk :: rest => s' ← body chunk s; async_for rest failure body s'
  end.

(** The body of a loop over the items another generator yielded. *)
Fixpoint for_items {Y Y' S : Type} (items : list Y) (body : Y → S → Run Y' S)
    (s : S) : Run Y' S :=
  match items with
  | [] => mret s
  | item :: rest => s' ← body item s; for_items rest body s'
  end.

(** [async for item in g: body]: the calls of [g] are made while it is
    drained, and an exception of [g] surfaces after the items it yielded. *)
Definition async_for_gen {Y Y' S : Type} (g : Run Y unit)
    (body : Y → S → Run Y' S) (s : S) : Run Y' S :=
  _ ← mkRun [] (calls g) (inr ());
  s' ← for_items (yielded g) body s;
  match outcome g with
  | inl e => raise e
  | inr _ => mret s'
  end.

End Effects.

(** ** providers/*_service.py *)

Module Providers.
Import Registry Effects.

(** utils/messages.py *)
Definition build_messages (prompt : string) : list Message :=
  [mkMessage "user" prompt].

Definition build_openrouter_extra (config : ModelConfig) : ExtraBody :=
  mkExtra (provider_sort_value (provider_sort config))
          (match candidate_models config with
           | [] => None
           | ms => Some ms
           end).

(** The keyword arguments every adapter passes to [create]:
    [messages=build_messages(prompt)], [temperature=config.temperature] and
    the token bound [config.max_completion_tokens]. *)
Definition create_args (client : Client) (model : string) (prompt : string)
    (config : ModelConfig) (extra_body : option ExtraBody) (stream_flag : bool)
    : ChatRequest :=
  mkRequest client model (build_messages prompt) (temperature config)
            (max_completion_tokens config) extra_body stream_flag.

(** [if delta_text: yield delta_text]. *)
Definition yield_delta (chunk : Chunk) : Run CompletionEvent unit :=
  match delta_content chunk with
  | Some delta_text => if Py.truthy delta_text then yield_ (Text delta_text) else mret ()
  | None => mret ()
  end.

(** [if finish_reason: last_finish_reason = finish_reason]. *)
Definition next_finish_reason (chunk : Chunk) (last_finish_reason : option string)
    : option string :=
  if Py.truthy_opt (finish_reason chunk) then finish_reason chunk
  else last_finish_reason.

(** [if last_finish_reason == "length": yield "__truncated__"]. *)
Definition yield_truncated (last_finish_reason : option string)
    : Run CompletionEvent unit :=
  if decide (last_finish_reason = Some "length") then yield_ Truncated else mret ().

(** *** openai_service.py *)

Definition generate_openai (W : World) (prompt : string) (config : ModelConfig)
    : Coro (string * option string) :=
  resp ← call_create W
    (create_args async_openai_client "gpt-4o-mini" prompt config None false);
  mret (Py.or_else (message_content resp) "", None).

Definition stream_openai (W : World) (prompt : string) (config : ModelConfig)
    : Run CompletionEvent unit :=
  stream ← await (call_create_stream W
    (create_args async_openai_client (primary_model config) prompt config None true));
  last_finish_reason ← async_for (chunks stream) (failure stream)
    (λ chunk last, _ ← yield_delta chunk; mret (next_finish_reason chunk last)) None;
  yield_truncated last_finish_reason.

(** *** openrouter_service.py *)

(** [if model_used: yield f"__model_used__:{model_used}"]. *)
Definition yield_model (first_chunk : Chunk) : Run CompletionEvent unit :=
  match chunk_model first_chunk with
  | Some model_used =>
      if Py.truthy model_used then yield_ (ModelSelected model_used) else mret ()
  | None => mret ()
  end.

Definition generate_openrouter (W : World) (prompt : string) (config : ModelConfig)
    (selected_model : option string)
    : Coro (string * option string * option string) :=
  let model_to_use := Py.or_else selected_model (primary_model config) in
  resp ← call_create W
    (create_args async_openrouter_client model_to_use prompt config
       (Some (build_openrouter_extra config)) false);
  let answer := Py.or_else (message_content resp) "" in
  let finish_reason := native_finish_reason resp in
  let model_used :=
    if Py.truthy_opt (choice_model resp) then choice_model resp
    else response_model resp in
  mret (answer, model_used, finish_reason).

Definition stream_openrouter (W : World) (prompt : string) (config : ModelConfig)
    (selected_model : option string) : Run CompletionEvent unit :=
  let model_to_use := Py.or_else selected_model (primary_model config) in
  stream ← await (call_create_stream W
    (create_args async_openrouter_client model_to_use prompt config
       (Some (build_openrouter_extra config)) true));
  match chunks stream with
  | [] =>
      (* [stream.__anext__()]: StopAsyncIteration returns, anything else
         propagates *)
      match failure stream with
      | None => mret ()
      | Some e => raise e
      end
  | first_chunk :: rest =>
      _ ← yield_model first_chunk;
      _ ← yield_delta first_chunk;
      last_finish_reason ← async_for rest (failure stream)
        (λ chunk last, _ ← yield_delta chunk; mret (next_finish_reason chunk last)) None;
      yield_truncated last_finish_reason
  end.

(** *** huggingface_service.py *)

Definition generate_huggingface (W : World) (prompt : string) (config : ModelConfig)
    : Coro (string * option string) :=
  resp ← call_create W
    (create_args hf_client (primary_model config) prompt config None false);
  mret (Py.or_else (message_content resp) "", None).

Definition stream_huggingface (W : World) (prompt : string) (config : ModelConfig)
    : Run CompletionEvent unit :=
  stream ← await (call_create_stream W
    (create_args hf_client (primary_model config) prompt config None true));
  async_for (chunks stream) (failure stream) (λ chunk _, yield_delta chunk) ().

End Providers.

(** ** generation_service.py *)

Module Generation.
Import Registry Effects Providers.

(** The dictionary [generate_answer] returns. *)
Record Answer : Type := mkAnswer {
  answer : string;
  sources : list (option string);
  model : option string;
  answer_finish_reason : option string
}.

(** The registry argument stands for the module-level [MODEL_REGISTRY]. *)
Definition generate_answer (W : World) (registry : ModelRegistry) (query : string)
    (contexts : list Search.SearchResult) (provider : string)
    (selected_model : option string) : Coro Answer :=
  let prompt := build_research_prompt W contexts query in
  let provider_lower := Py.lower provider in
  config ← of_result (get_config registry provider_lower);
  '(answer, model_used, finish_reason) ←
    (if decide (provider_lower = "openai") then
       '(answer, model_used) ← generate_openai W prompt config;
       mret (answer, model_used, None)
     else if decide (provider_lower = "openrouter") then
       try_except
         ('(answer, model_used, finish_reason) ←
            generate_openrouter W prompt config selected_model;
          _ ← call_evaluate_metrics W answer prompt;
          mret (answer, model_used, finish_reason))
         (λ e, raise e)
     else if decide (provider_lower = "huggingface") then
       '(answer, model_used) ← generate_huggingface W prompt config;
       mret (answer, model_used, None)
     else raise (ValueError ("Unknown provider: " +:+ provider)));
  mret (mkAnswer answer (Search.url <$> contexts) model_used finish_reason).

(** [async for chunk in g: buffer.append(chunk); yield chunk], returning the
    buffer. *)
Definition relay (g : Run CompletionEvent unit)
    : Run CompletionEvent (list string) :=
  async_for_gen g
    (λ chunk buffer, _ ← yield_ chunk; mret (buffer ++ [wire chunk])) [].

(** ["".join(buffer)]. *)
Definition join (buffer : list string) : string :=
  foldr String.append "" buffer.

(** The inner generator, run to its end. *)
Definition stream_gen (W : World) (provider provider_lower prompt : string)
    (config : ModelConfig) (selected_model : option string)
    : Run CompletionEvent unit :=
  if decide (provider_lower = "openai") then
    _ ← relay (stream_openai W prompt config); mret ()
  else if decide (provider_lower = "openrouter") then
    try_except
      (buffer ← relay (stream_openrouter W prompt config selected_model);
       let full_output := join buffer in
       await (call_evaluate_metrics W full_output prompt))
      (λ e, yield_ Error)
  else if decide (provider_lower = "huggingface") then
    _ ← relay (stream_huggingface W prompt config); mret ()
  else raise (ValueError ("Unknown provider: " +:+ provider)).

(** Either the lookup fails at once, or the generator function is returned;
    the generator function is given by the run of its generator. *)
Definition get_streaming_function (W : World) (registry : ModelRegistry)
    (provider query : string) (contexts : list Search.SearchResult)
    (selected_model : option string) : PyExn + Run CompletionEvent unit :=
  let prompt := build_research_prompt W contexts query in
  let provider_lower := Py.lower provider in
  match get_config registry provider_lower with
  | inl e => inl e
  | inr config =>
      inr (stream_gen W provider provider_lower prompt config selected_model)
  end.

(** The text a consumer assembles: the concatenation of the [Text] events. *)
Fixpoint text_of (events : list CompletionEvent) : string :=
  match events with
  | [] => ""
  | Text content :: rest => content +:+ text_of rest
  | _ :: rest => text_of rest
  end.

End Generation.

(** ** Vocabulary for the statements about streams *)

Module Protocol.
Import Registry Effects Providers.

(** The events of one chunk's [if delta_text: yield delta_text]. *)
Definition delta_events (chunk : Chunk) : list CompletionEvent :=
  match delta_content chunk with
  | Some delta_text => if Py.truthy delta_text then [Text delta_text] else []
  | None => []
  end.

Definition text_events (chunks : list Chunk) : list CompletionEvent :=
  chunks ≫= delta_events.

(** The value of [last_finish_reason] after the loop. *)
Definition finish_after (chunks : list Chunk) (last : option string) : option string :=
  foldl (λ last chunk, next_finish_reason chunk last) last chunks.

(** The finish-reason a stream ends with: the last one any chunk reports. *)
Definition reported (chunk : Chunk) : option string :=
  if Py.truthy_opt (finish_reason chunk) then finish_reason chunk else None.

Definition terminal_finish_reason (chunks : list Chunk) : option string :=
  last (omap reported chunks).

Definition stream_end (s : ChunkStream) : PyExn + unit :=
  match failure s with
  | None => inr ()
  | Some e => inl e
  end.

Definition is_text (e : CompletionEvent) : bool :=
  match e with Text _ => true | _ => false end.

(** The event of [if model_used: yield ...] on the first chunk. *)
Definition model_events (chunks : list Chunk) : list CompletionEvent :=
  match chunks with
  | first_chunk :: _ =>
      match chunk_model first_chunk with
      | Some model_used =>
          if Py.truthy model_used then [ModelSelected model_used] else []
      | None => []
      end
  | [] => []
  end.

(** The marker after a loop that ended normally and looked at [considered]. *)
Definition truncation_events (s : ChunkStream) (considered : list Chunk)
    : list CompletionEvent :=
  match failure s with
  | None =>
      if decide (terminal_finish_reason considered = Some "length")
      then [Truncated] else []
  | Some _ => []
  end.

Definition openai_events (s : ChunkStream) : list CompletionEvent :=
  text_events (chunks s) ++ truncation_events s (chunks s).

Definition openrouter_events (s : ChunkStream) : list CompletionEvent :=
  model_events (chunks s) ++ text_events (chunks s)
    ++ truncation_events s (tail (chunks s)).

(** The models named in the [create] calls of a run. *)
Definition requested_models (effects : list Effect) : list string :=
  omap (λ c, match c with ChatCreate r => Some (rq_model r) | _ => None end) effects.

(** The concatenation of the [delta.content] of the chunks. *)
Fixpoint join_deltas (chunks : list Chunk) : string :=
  match chunks with
  | [] => ""
  | chunk :: rest => default "" (delta_content chunk) +:+ join_deltas rest
  end.

(** The first chunk of a stream reports no finish-reason. *)
Definition first_chunk_silent (chunks : list Chunk) : Prop :=
  match chunks with
  | first_chunk :: _ => Py.truthy_opt (finish_reason first_chunk) = false
  | [] => True
  end.

(** The (answer, prompt) pairs handed to the evaluation step by a run. *)
Definition evaluated (effects : list Effect) : list (string * string) :=
  omap (λ c, match c with
             | EvaluateMetrics answer prompt => Some (answer, prompt)
             | _ => None
             end) effects.

(** A sequence that ends with a [Truncated] event and holds no other one. *)
Definition ends_with_one_truncated (events : list CompletionEvent) : Prop :=
  ∃ body, events = body ++ [Truncated] ∧ Truncated ∉ body.

End Protocol.

(** ** Sample data *)

Module Samples.
Import Search Registry Effects.

Definition sample_points : list ScoredPoint :=
  [ mkPoint (IdInt 1) (Some (mkPayload (Some "RAG") None None None None None)) 1%Q;
    mkPoint (IdInt 1) (Some (mkPayload (Some "RAG") None None None None None)) 1%Q;
    mkPoint (IdInt 2) (Some (mkPayload (Some "RAG") None None None None None)) 1%Q;
    mkPoint (IdInt 3) None 1%Q;
    mkPoint (IdUuid "a") (Some (mkPayload (Some "Agents") None None None None None)) 1%Q ].

Definition sample_query : Query := mkQuery "RAG" None None None.

(** A backend that answers "Hello" in batch mode and streams it as "Hel",
    "lo", with the given last finish-reason and the given end of stream. *)
Definition hello_chunks (finish : option string) : list Chunk :=
  [mkChunk (Some "served/model") (Some "Hel") None;
   mkChunk (Some "served/model") (Some "lo") finish].

Definition hello_world (finish : option string) (failure : option PyExn)
    (evaluation : PyExn + unit) : World :=
  mkWorld (λ _ query, query)
    (λ _, inr (mkCompletion (Some "Hello") None (Some "served/model") finish))
    (λ _, inr (mkStream (hello_chunks finish) failure))
    (λ _ _, evaluation).

Definition boom : PyExn := OtherExn "RuntimeError" "boom".

End Samples.

(** ** More Python string operations *)

Module PyText.

(** [str.isspace()] on one ASCII character: tab to carriage return, the
    four separators 0x1c-0x1f and the space. *)
Definition is_space (c : ascii) : bool :=
  let n := nat_of_ascii c in
  ((Nat.leb 9 n && Nat.leb n 13) || (Nat.leb 28 n && Nat.leb n 32))%bool.

Fixpoint lstrip (s : string) : string :=
  match s with
  | EmptyString => EmptyString
  | String c rest => if is_space c then lstrip rest else s
  end.

Fixpoint rstrip (s : string) : string :=
  match s with
  | EmptyString => EmptyString
  | String c rest =>
      match rstrip rest with
      | EmptyString => if is_space c then EmptyString else String c EmptyString
      | r => String c r
      end
  end.

(** [s.strip()]: whitespace removed at both ends (ASCII whitespace only). *)
Definition strip (s : string) : string := rstrip (lstrip s).

(** [s.startswith(p)]. *)
Definition startswith (s p : string) : bool := String.prefix p s.

(** [s.replace(old, new)] for a non-empty [old]: occurrences are replaced
    from left to right without overlap. [skip] counts the characters of a
    matched occurrence still to be passed over. *)
Fixpoint replace_from (old new : string) (skip : nat) (s : string) : string :=
  match s with
  | EmptyString => EmptyString
  | String c rest =>
      match skip with
      | S k => replace_from old new k rest
      | O =>
          if String.prefix old s
          then new +:+ replace_from old new (Nat.pred (String.length old)) rest
          else String c (replace_from old new O rest)
      end
  end.

Definition replace (s old new : string) : string := replace_from old new O s.

End PyText.

(** ** search_service.py: the filter both queries build *)

Module Filters.
Import Search.

Inductive Match : Type :=
| MatchValue (value : string)
| MatchText (text : string).

Record FieldCondition : Type := mkCondition {
  key : string;
  match_ : Match
}.

(** [if x: conditions.append(c x)] for [x : str | None]. *)
Definition append_if (x : option string) (c : string → FieldCondition)
    (conditions : list FieldCondition) : list FieldCondition :=
  match x with
  | Some v => if Py.truthy v then conditions ++ [c v] else conditions
  | None => conditions
  end.

Definition build_conditions (q : Query) : list FieldCondition :=
  let conditions := [] in
  let conditions :=
    append_if (q_feed_author q)
      (λ v, mkCondition "feed_author" (MatchValue v)) conditions in
  let conditions :=
    append_if (q_feed_name q)
      (λ v, mkCondition "feed_name" (MatchValue v)) conditions in
  append_if (q_title_keywords q)
    (λ v, mkCondition "title" (MatchText (Py.lower (PyText.strip v)))) conditions.

(** [Filter(must=conditions) if conditions else None]. *)
Definition query_filter (q : Query) : option (list FieldCondition) :=
  match build_conditions q with
  | [] => None
  | conditions => Some conditions
  end.

(** One [Prefetch(...)] of the hybrid query. *)
Record Prefetch : Type := mkPrefetch {
  vector_name : string;
  prefetch_limit : Z;
  prefetch_filter : option (list FieldCondition)
}.

(** The arguments of [query_points], the query vectors left out. *)
Record PointsRequest : Type := mkPointsRequest {
  prefetch : list Prefetch;
  request_filter : option (list FieldCondition);
  request_limit : Z
}.

(** The request of [query_with_filters] ([amplification = 100]) and of
    [query_unique_titles] ([amplification = 280]). *)
Definition points_request (amplification : Z) (q : Query) (limit : Z)
    : PointsRequest :=
  let query_filter := query_filter q in
  let fetch_limit := Z.max 1 limit * amplification in
  mkPointsRequest
    [mkPrefetch "Dense" fetch_limit query_filter;
     mkPrefetch "Sparse" fetch_limit query_filter]
    query_filter fetch_limit.

End Filters.

(** ** middleware/logging_middleware.py *)

Module Middleware.

(** [k.lower() not in {"authorization", "cookie"}], negated. *)
Definition sensitive (k : string) : bool :=
  bool_decide (Py.lower k ∈ ({["authorization"; "cookie"]} : gset string)).

(** The dict comprehension building [safe_headers] from [headers.items()]:
    a later item with the same key replaces an earlier one. *)
Definition safe_headers (items : list (string * string)) : gmap string string :=
  foldl (λ m kv, if sensitive kv.1 then m else <[kv.1 := kv.2]> m) ∅ items.

End Middleware.

(** ** routes/search_routes.py *)

Module Routes.
Import Search Registry Effects Generation.

(** The fields of [AskRequest] the routes read. *)
Record AskRequest : Type := mkAsk {
  ask_query_text : string;
  ask_feed_author : option string;
  ask_feed_name : option string;
  ask_title_keywords : option string;
  ask_limit : Z;
  ask_provider : string;
  ask_model : option string
}.

Record AskResponse : Type := mkAskResponse {
  resp_query : string;
  resp_provider : string;
  resp_answer : string;
  resp_sources : list SearchResult;
  resp_model : option string;
  resp_finish_reason : option string
}.

(** What a route makes leave the process: the query to the vector store,
    and the calls of the generation layer. *)
Inductive RouteEffect : Type :=
| QueryPoints (q : Query) (fetch_limit : Z)
| Generation (e : Effect).

Definition ask_query (ask : AskRequest) : Query :=
  mkQuery (ask_query_text ask) (ask_feed_author ask) (ask_feed_name ask)
          (ask_title_keywords ask).

(** [POST /ask]. *)
Definition ask_with_generation (W : World) (index : Index)
    (registry : ModelRegistry) (ask : AskRequest)
    : list RouteEffect * (PyExn + AskResponse) :=
  (* Step 1: retrieve *)
  let results := query_with_filters index (ask_query ask) (ask_limit ask) in
  let retrieved := [QueryPoints (ask_query ask) (Z.max 1 (ask_limit ask) * 100)] in
  (* Step 2: generate *)
  let answer_data :=
    generate_answer W registry (ask_query_text ask) results (ask_provider ask)
      (ask_model ask) in
  (retrieved ++ (Generation <$> calls answer_data),
   match outcome answer_data with
   | inl e => inl e
   | inr data =>
       inr (mkAskResponse (ask_query_text ask) (ask_provider ask) (answer data)
              results (model data) (answer_finish_reason data))
   end).

(** The body of a [StreamingResponse]: the chunks written, and the exception
    that cut the body short, if any. *)
Record StreamBody : Type := mkBody {
  body_chunks : list string;
  body_failure : option PyExn
}.

(** [POST /ask/stream]: the route fails before any response when the
    generator cannot be obtained; otherwise [stream_generator] re-yields every
    delta of the generator. *)
Definition ask_with_generation_stream (W : World) (index : Index)
    (registry : ModelRegistry) (ask : AskRequest)
    : list RouteEffect * (PyExn + StreamBody) :=
  let results := query_with_filters index (ask_query ask) (ask_limit ask) in
  let retrieved := [QueryPoints (ask_query ask) (Z.max 1 (ask_limit ask) * 100)] in
  match get_streaming_function W registry (ask_provider ask) (ask_query_text ask)
          results (ask_model ask) with
  | inl e => (retrieved, inl e)
  | inr stream_func =>
      (retrieved ++ (Generation <$> calls stream_func),
       inr (mkBody (wire <$> yielded stream_func)
              (match outcome stream_func with
               | inl e => Some e
               | inr _ => None
               end)))
  end.

End Routes.

(** ** frontend/app.py *)

Module Frontend.
Import Registry.

(** What [requests.post] gives the streaming client: an exception before the
    body is read ([raise_for_status] included), or the chunks of
    [iter_content] followed by a normal end or an exception. Exceptions are
    given by their [str(e)]. *)
Record Response : Type := mkResponse {
  request_failure : option string;
  received : list string;
  read_failure : option string
}.

(** The loop of [call_ai] in streaming mode, with its variable
    [answer_text]; the events are the (type, content) tuples it yields. *)
Fixpoint call_ai_loop (chunks : list string) (read_failure : option string)
    (answer_text : string) : list (string * string) :=
  match chunks with
  | [] =>
      match read_failure with
      | Some e => [("error", "Request failed: " +:+ e)]
      | None => []
      end
  | chunk :: rest =>
      if negb (Py.truthy chunk) then call_ai_loop rest read_failure answer_text
      else if PyText.startswith chunk "__model_used__:" then
        ("model", PyText.strip (PyText.replace chunk "__model_used__:" ""))
          :: call_ai_loop rest read_failure answer_text
      else if PyText.startswith chunk "__error__" then
        [("error", "Request failed. Please try again later.")]
      else if PyText.startswith chunk "__truncated__" then
        ("truncated", "AI response truncated due to token limit.")
          :: call_ai_loop rest read_failure answer_text
      else
        let answer_text := answer_text +:+ chunk in
        ("text", answer_text) :: call_ai_loop rest read_failure answer_text
  end.

Definition call_ai_streaming (r : Response) : list (string * string) :=
  match request_failure r with
  | Some e => [("error", "Request failed: " +:+ e)]
  | None => call_ai_loop (received r) (read_failure r) ""
  end.

(** The JSON body of [POST /ask] as [call_ai] reads it: [data.get("answer",
    "")] and [data.get("finish_reason")]. *)
Record AskJson : Type := mkAskJson {
  json_answer : option string;
  json_finish_reason : option string
}.

Definition call_ai_batch (r : string + AskJson) : list (string * string) :=
  match r with
  | inl e => [("error", "Request failed: " +:+ e)]
  | inr data =>
      ("text", default "" (json_answer data))
        :: (if decide (json_finish_reason data = Some "length")
            then [("truncated", "AI response truncated due to token limit.")]
            else [])
  end.

Definition automatic : string := "Automatic Model Selection (Model Routing)".

(** [get_models_for_provider], over the registry it imports. *)
Definition get_models_for_provider (registry : ModelRegistry) (provider : string)
    : list string :=
  let provider_key := Py.lower provider in
  match get_config registry provider_key with
  | inr config =>
      [automatic]
        ++ (if Py.truthy (primary_model config) then [primary_model config] else [])
        ++ candidate_models config
  | inl _ => [automatic]
  end.

(** The content of the last "text" event, the text on screen at the end. *)
Definition final_text (events : list (string * string)) : string :=
  default "" (last (omap (λ ev, if decide (ev.1 = "text") then Some ev.2 else None)
                         events)).

End Frontend.

(** ** Vocabulary for the statements about retrieval *)

Module SearchVocabulary.
Import Search.

(** The title a candidate contributes to the title variant, if any. *)
Definition usable_title (p : ScoredPoint) : option string :=
  match p_title (payload_or_empty p) with
  | Some t => if Py.truthy t then Some t else None
  | None => None
  end.

(** The distinct ids, and the distinct usable titles, of a candidate list. *)
Definition distinct_ids (points : list ScoredPoint) : gset PointId :=
  list_to_set (id <$> points).

Definition distinct_titles (points : list ScoredPoint) : gset string :=
  list_to_set (omap usable_title points).

End SearchVocabulary.

(** ** More vocabulary for the statements about streams *)

Module StreamVocabulary.
Import Registry Effects.

Definition is_model (e : CompletionEvent) : bool :=
  match e with ModelSelected _ => true | _ => false end.

(** The effect is a request sent through the given client. *)
Definition sent_through (client : Client) (e : Effect) : Prop :=
  match e with
  | ChatCreate r => rq_client r = client
  | EvaluateMetrics _ _ => False
  end.

(** The request [r] with its [stream] argument set. *)
Definition with_stream (r : ChatRequest) (flag : bool) : ChatRequest :=
  mkRequest (rq_client r) (rq_model r) (rq_messages r) (rq_temperature r)
            (rq_max_tokens r) (rq_extra_body r) flag.

End StreamVocabulary.

(** ** Vocabulary for the statements about the streaming client *)

Module ClientVocabulary.
Import Effects Frontend.

(** A received chunk that makes the client stop: non-empty and starting
    with the error marker. *)
Definition is_error_chunk (chunk : string) : bool :=
  (Py.truthy chunk && PyText.startswith chunk "__error__")%bool.

(** A received chunk that is taken as answer text: non-empty and starting
    with none of the three markers. *)
Definition is_plain (chunk : string) : bool :=
  (Py.truthy chunk
   && negb (PyText.startswith chunk "__model_used__:")
   && negb (PyText.startswith chunk "__error__")
   && negb (PyText.startswith chunk "__truncated__"))%bool.

(** The chunks read before the first error chunk. *)
Fixpoint before_error (chunks : list string) : list string :=
  match chunks with
  | [] => []
  | chunk :: rest => if is_error_chunk chunk then [] else chunk :: before_error rest
  end.

(** The running concatenations of a list of strings, from [acc] on. *)
Fixpoint running (acc : string) (l : list string) : list string :=
  match l with
  | [] => []
  | x :: rest => (acc +:+ x) :: running (acc +:+ x) rest
  end.

(** The contents of the "text" events. *)
Definition text_contents (events : list (string * string)) : list string :=
  omap (λ ev, if decide (ev.1 = "text") then Some ev.2 else None) events.

(** An event whose string the client reads back as what it is: a fragment
    that does not look like a marker, a model marker or a truncation
    marker. *)
Definition reads_back (e : CompletionEvent) : Prop :=
  match e with
  | Text content => is_plain content = true
  | ModelSelected _ => True
  | Truncated => True
  | Error => False
  end.

End ClientVocabulary.

(** ** More sample data *)

Module MoreSamples.
Import Search Registry Effects.

Definition distinct_points : list ScoredPoint :=
  [ mkPoint (IdInt 1) (Some (mkPayload (Some "RAG") None None None None None)) 1%Q;
    mkPoint (IdInt 2) (Some (mkPayload (Some "RAG") None None None None None)) 1%Q;
    mkPoint (IdUuid "a") None 1%Q ].

End MoreSamples.
(** ** Properties of the deduplicating queries *)

Module SearchProps.
Import Search Samples.

Lemma slice_to_nil {A : Type} (stop : Z) : Py.slice_to (@nil A) stop = [].
Proof. unfold Py.slice_to. destruct (0 <=? stop); apply take_nil. Qed.

Lemma slice_to_zero {A : Type} (l : list A) : Py.slice_to l 0 = [].
Proof. reflexivity. Qed.

Lemma slice_to_pos {A : Type} (l : list A) (stop : Z) :
  0 ≤ stop → Py.slice_to l stop = take (Z.to_nat stop) l.
Proof. intros H. unfold Py.slice_to. destruct (Z.leb_spec 0 stop); [done | lia]. Qed.

(** [ids_loop] only ever appends to [results], and what it appends is the
    image of the kept points. *)
Lemma ids_loop_kept points seen results :
  ids_loop points seen results = results ++ (result_of_point <$> ids_kept points seen).
Proof.
  revert seen results.
  induction points as [|p rest IH]; intros seen results; simpl.
  - by rewrite app_nil_r.
  - destruct (decide (id p ∈ seen)); [apply IH |].
    rewrite IH, <- app_assoc. reflexivity.
Qed.

Lemma ids_kept_sublist points seen : sublist (ids_kept points seen) points.
Proof.
  revert seen. induction points as [|p rest IH]; intros seen; simpl.
  - constructor.
  - destruct (decide (id p ∈ seen)).
    + apply sublist_cons, IH.
    + apply sublist_skip, IH.
Qed.

Lemma ids_kept_fresh points seen p :
  p ∈ ids_kept points seen → id p ∉ seen.
Proof.
  revert seen. induction points as [|p0 rest IH]; intros seen; simpl.
  - by intros ?%elem_of_nil.
  - destruct (decide (id p0 ∈ seen)); [apply IH |].
    intros [-> | Hin]%elem_of_cons; [done |].
    apply IH in Hin. set_solver.
Qed.

Lemma ids_kept_NoDup points seen : NoDup (id <$> ids_kept points seen).
Proof.
  revert seen. induction points as [|p rest IH]; intros seen; simpl.
  - constructor.
  - destruct (decide (id p ∈ seen)); [apply IH |].
    rewrite fmap_cons. constructor; [| apply IH].
    intros (p' & Heq & Hin)%list_elem_of_fmap.
    apply ids_kept_fresh in Hin. set_solver.
Qed.

(** A kept point of the title loop has a truthy title, so both ways of
    building its result agree. *)
Lemma titles_loop_kept limit points seen results :
  titles_loop limit points seen results =
  results ++ (result_of_point <$> titles_kept limit points seen (length results)).
Proof.
  revert seen results.
  induction points as [|p rest IH]; intros seen results; simpl.
  - by rewrite app_nil_r.
  - destruct (p_title (payload_or_empty p)) as [t|] eqn:Ht; [| apply IH].
    destruct (negb (Py.truthy t) || bool_decide (t ∈ seen))%bool; [apply IH |].
    assert (Hres : make_result t p = result_of_point p).
    { unfold result_of_point. by rewrite Ht. }
    rewrite length_app, Nat.add_1_r. simpl.
    destruct (Z.of_nat (S (length results)) >=? limit) eqn:Hge.
    + by rewrite Hres.
    + rewrite IH, length_app, Nat.add_1_r, <- app_assoc, Hres. reflexivity.
Qed.

Lemma titles_kept_sublist limit points seen n :
  sublist (titles_kept limit points seen n) points.
Proof.
  revert seen n. induction points as [|p rest IH]; intros seen n; simpl.
  - constructor.
  - destruct (p_title (payload_or_empty p)) as [t|]; [| apply sublist_cons, IH].
    destruct (negb (Py.truthy t) || bool_decide (t ∈ seen))%bool;
      [apply sublist_cons, IH |].
    destruct (Z.of_nat (S n) >=? limit).
    + apply sublist_skip, sublist_nil_l.
    + apply sublist_skip, IH.
Qed.

Lemma titles_kept_fresh limit points seen n p :
  p ∈ titles_kept limit points seen n →
  ∃ t, p_title (payload_or_empty p) = Some t ∧ Py.truthy t = true ∧ t ∉ seen.
Proof.
  revert seen n. induction points as [|p0 rest IH]; intros seen n; simpl.
  - by intros ?%elem_of_nil.
  - destruct (p_title (payload_or_empty p0)) as [t|] eqn:Ht; [| apply IH].
    destruct (Py.truthy t) eqn:Htr; simpl; [| apply IH].
    destruct (bool_decide_reflect (t ∈ seen)) as [Hin | Hnin]; [apply IH |].
    destruct (Z.of_nat (S n) >=? limit).
    + intros ->%list_elem_of_singleton. eauto.
    + intros [-> | Hin]%elem_of_cons; [eauto |].
      apply IH in Hin as (t' & ? & ? & ?). exists t'. set_solver.
Qed.

Lemma titles_kept_NoDup limit points seen n :
  NoDup (title ∘ result_of_point <$> titles_kept limit points seen n).
Proof.
  revert seen n. induction points as [|p rest IH]; intros seen n; simpl.
  - constructor.
  - destruct (p_title (payload_or_empty p)) as [t|] eqn:Ht; [| apply IH].
    destruct (negb (Py.truthy t) || bool_decide (t ∈ seen))%bool; [apply IH |].
    destruct (Z.of_nat (S n) >=? limit).
    + apply NoDup_singleton.
    + rewrite fmap_cons. constructor; [| apply IH].
      intros (p' & Heq & Hin)%list_elem_of_fmap.
      apply titles_kept_fresh in Hin as (t' & Ht' & _ & Hfresh).
      simpl in Heq. rewrite Ht, Ht' in Heq. simpl in Heq. set_solver.
Qed.

Lemma titles_kept_length limit points seen n :
  Z.of_nat n < limit →
  Z.of_nat (n + length (titles_kept limit points seen n)) ≤ limit.
Proof.
  revert seen n. induction points as [|p rest IH]; intros seen n Hn; simpl.
  - lia.
  - destruct (p_title (payload_or_empty p)) as [t|]; [| by apply IH].
    destruct (negb (Py.truthy t) || bool_decide (t ∈ seen))%bool; [by apply IH |].
    destruct (Z.geb_spec (Z.of_nat (S n)) limit) as [Hge | Hlt]; simpl.
    + lia.
    + specialize (IH ({[t]} ∪ seen) (S n) Hlt). lia.
Qed.

(** With an empty [seen_titles], a zero limit stops the title loop at the
    first candidate that carries a truthy title. *)
Lemma titles_kept_zero points :
  (∃ p, p ∈ points ∧ Py.truthy_opt (p_title (payload_or_empty p)) = true) →
  length (titles_kept 0 points ∅ 0) = 1%nat.
Proof.
  induction points as [|p0 rest IH]; intros (p & Hin & Ht).
  - by apply elem_of_nil in Hin.
  - simpl. destruct (p_title (payload_or_empty p0)) as [t|] eqn:Ht0.
    + destruct (Py.truthy t) eqn:Htr; simpl.
      * rewrite bool_decide_eq_false_2 by set_solver. reflexivity.
      * apply IH. apply elem_of_cons in Hin as [-> | Hin]; [| eauto].
        rewrite Ht0 in Ht. simpl in Ht. congruence.
    + apply IH. apply elem_of_cons in Hin as [-> | Hin]; [| eauto].
      rewrite Ht0 in Ht. discriminate.
Qed.

(** *** The claims about retrieval *)

(** C1. For every limit [L >= 1] and every candidate list the index returns,
    both [query_with_filters] and [query_unique_titles] return at most [L]
    results; the results are the images of a subsequence of the candidate list
    (so they keep its fused-score order); the kept points have pairwise
    distinct point ids in the identity variant, and the results have pairwise
    distinct titles in the title variant. *)
Theorem search_bounded_unique_ordered (index : Index) (q : Query) (L : Z) :
  1 ≤ L →
  (∃ kept : list ScoredPoint,
      query_with_filters index q L = result_of_point <$> kept
      ∧ sublist kept (index q (Z.max 1 L * 100))
      ∧ NoDup (id <$> kept)
      ∧ Z.of_nat (length (query_with_filters index q L)) ≤ L)
  ∧ (∃ kept : list ScoredPoint,
      query_unique_titles index q L = result_of_point <$> kept
      ∧ sublist kept (index q (Z.max 1 L * 280))
      ∧ NoDup (title <$> query_unique_titles index q L)
      ∧ Z.of_nat (length (query_unique_titles index q L)) ≤ L).
Proof.
  intros HL. split.
  - unfold query_with_filters. cbv zeta.
    set (points := index q (Z.max 1 L * 100)).
    rewrite ids_loop_kept, app_nil_l, slice_to_pos by lia.
    rewrite <- fmap_take.
    exists (take (Z.to_nat L) (ids_kept points ∅)).
    split; [reflexivity |]. split; [| split].
    + etrans; [apply sublist_take | apply ids_kept_sublist].
    + eapply sublist_NoDup; [| apply fmap_sublist, sublist_take].
      apply ids_kept_NoDup.
    + rewrite length_fmap, length_take. lia.
  - unfold query_unique_titles. cbv zeta.
    set (points := index q (Z.max 1 L * 280)).
    rewrite titles_loop_kept, app_nil_l. simpl length.
    exists (titles_kept L points ∅ 0).
    split; [reflexivity |]. split; [| split].
    + apply titles_kept_sublist.
    + rewrite <- list_fmap_compose. apply titles_kept_NoDup.
    + rewrite length_fmap.
      pose proof (titles_kept_length L points ∅ 0) as H. simpl in H. lia.
Qed.

Example query_with_filters_sample :
  title <$> query_with_filters (λ _ _, sample_points) sample_query 3 = ["RAG"; "RAG"; ""].
Proof. vm_compute. reflexivity. Qed.

Example query_unique_titles_sample :
  title <$> query_unique_titles (λ _ _, sample_points) sample_query 3 = ["RAG"; "Agents"].
Proof. vm_compute. reflexivity. Qed.

Lemma search_bounded_unique_ordered_witness :
  let index : Index := λ _ _, sample_points in
  (∃ kept : list ScoredPoint,
      query_with_filters index sample_query 2 = result_of_point <$> kept
      ∧ sublist kept (index sample_query (Z.max 1 2 * 100))
      ∧ NoDup (id <$> kept)
      ∧ Z.of_nat (length (query_with_filters index sample_query 2)) ≤ 2)
  ∧ (∃ kept : list ScoredPoint,
      query_unique_titles index sample_query 2 = result_of_point <$> kept
      ∧ sublist kept (index sample_query (Z.max 1 2 * 280))
      ∧ NoDup (title <$> query_unique_titles index sample_query 2)
      ∧ Z.of_nat (length (query_unique_titles index sample_query 2)) ≤ 2).
Proof.
  intros index. apply (search_bounded_unique_ordered index sample_query 2). lia.
Defined.

(** C8. When the index returns no candidate, both retrieval modes return the
    empty list (the functions are total: nothing is raised). *)
Theorem empty_candidates_empty_results (index : Index) (q : Query) (limit : Z) :
  (∀ fetch_limit, index q fetch_limit = []) →
  query_with_filters index q limit = [] ∧ query_unique_titles index q limit = [].
Proof.
  intros Hempty. unfold query_with_filters, query_unique_titles.
  rewrite !Hempty. simpl. split; [apply slice_to_nil | reflexivity].
Qed.

Lemma empty_candidates_empty_results_witness :
  query_with_filters (λ _ _, []) sample_query 5 = []
  ∧ query_unique_titles (λ _ _, []) sample_query 5 = [].
Proof.
  apply (empty_candidates_empty_results (λ _ _, []) sample_query 5).
  intros fetch_limit. reflexivity.
Defined.

(** C9. With [limit = 0] the two modes disagree: [query_with_filters] returns
    the empty list, while [query_unique_titles] returns exactly one result as
    soon as the candidate list holds a candidate with a truthy title. *)
Theorem limit_zero_modes_disagree (index : Index) (q : Query) :
  (∃ p, p ∈ index q (Z.max 1 0 * 280)
        ∧ Py.truthy_opt (p_title (payload_or_empty p)) = true) →
  query_with_filters index q 0 = []
  ∧ length (query_unique_titles index q 0) = 1%nat.
Proof.
  intros Hex. split.
  - unfold query_with_filters. apply slice_to_zero.
  - unfold query_unique_titles. cbv zeta.
    rewrite titles_loop_kept, app_nil_l, length_fmap. simpl length.
    by apply titles_kept_zero.
Qed.

Lemma limit_zero_modes_disagree_witness :
  query_with_filters (λ _ _, sample_points) sample_query 0 = []
  ∧ length (query_unique_titles (λ _ _, sample_points) sample_query 0) = 1%nat.
Proof.
  apply (limit_zero_modes_disagree (λ _ _, sample_points) sample_query).
  exists (mkPoint (IdInt 1) (Some (mkPayload (Some "RAG") None None None None None)) 1%Q).
  split; [| reflexivity].
  unfold sample_points. apply list_elem_of_here.
Defined.

End SearchProps.

(** ** Properties of the adapters and of the orchestrator *)

Module GenProps.
Import Registry Effects Providers Generation Protocol Samples.

(** *** Strings *)

Lemma lower_ascii_idemp c : Py.lower_ascii (Py.lower_ascii c) = Py.lower_ascii c.
Proof. destruct c as [[] [] [] [] [] [] [] []]; reflexivity. Qed.

Lemma lower_idemp s : Py.lower (Py.lower s) = Py.lower s.
Proof.
  induction s as [|c s IH]; simpl; [reflexivity |].
  by rewrite lower_ascii_idemp, IH.
Qed.

Lemma string_app_assoc (a b c : string) : (a +:+ b) +:+ c = a +:+ (b +:+ c).
Proof.
  induction a as [|x a IH]; [reflexivity |].
  change (String x ((a +:+ b) +:+ c) = String x (a +:+ (b +:+ c))).
  by rewrite IH.
Qed.

(** Decide the comparisons of two string literals left in the goal by the
    provider dispatch. *)
Ltac decide_literals :=
  repeat match goal with
  | |- context [decide (?a = ?b)] =>
      first [ rewrite (decide_True (P := a = b)) by reflexivity
            | rewrite (decide_False (P := a = b)) by discriminate ]
  end.

(** *** The monad *)

Lemma run_bind_eq {Y A B : Type} (m : Run Y A) (k : A → Run Y B) :
  m ≫= k =
  match outcome m with
  | inl e => mkRun (yielded m) (calls m) (inl e)
  | inr a => mkRun (yielded m ++ yielded (k a)) (calls m ++ calls (k a)) (outcome (k a))
  end.
Proof. reflexivity. Qed.

Lemma of_result_bind {Y A B : Type} (a : A) (k : A → Run Y B) :
  of_result (inr a) ≫= k = k a.
Proof. rewrite run_bind_eq. simpl. by destruct (k a). Qed.

(** *** What a loop over chunks yields *)

Lemma yield_delta_run chunk :
  yield_delta chunk = mkRun (delta_events chunk) [] (inr ()).
Proof.
  unfold yield_delta, delta_events.
  destruct (delta_content chunk) as [d|]; [| reflexivity].
  destruct (Py.truthy d); reflexivity.
Qed.

Lemma finish_loop_run chunks failure last :
  async_for chunks failure
    (λ chunk last, _ ← yield_delta chunk; mret (next_finish_reason chunk last)) last
  = mkRun (text_events chunks) []
      (match failure with
       | None => inr (finish_after chunks last)
       | Some e => inl e
       end).
Proof.
  revert last. induction chunks as [|c rest IH]; intros last; simpl.
  - destruct failure; reflexivity.
  - rewrite !run_bind_eq, yield_delta_run. simpl.
    rewrite IH, app_nil_r. simpl.
    destruct failure; reflexivity.
Qed.

Lemma plain_loop_run chunks failure :
  async_for chunks failure (λ chunk _, yield_delta chunk) ()
  = mkRun (text_events chunks) []
      (match failure with None => inr () | Some e => inl e end).
Proof.
  induction chunks as [|c rest IH]; simpl.
  - destruct failure; reflexivity.
  - rewrite run_bind_eq, yield_delta_run. simpl.
    rewrite IH. simpl. destruct failure; reflexivity.
Qed.

Lemma yield_truncated_run last :
  yield_truncated last =
  mkRun (if decide (last = Some "length") then [Truncated] else []) [] (inr ()).
Proof. unfold yield_truncated. destruct (decide _); reflexivity. Qed.

Lemma terminal_finish_reason_cons c rest :
  terminal_finish_reason (c :: rest) =
  match terminal_finish_reason rest with
  | Some r => Some r
  | None => reported c
  end.
Proof.
  unfold terminal_finish_reason.
  change (omap reported (c :: rest))
    with (match reported c with
          | Some r => r :: omap reported rest
          | None => omap reported rest
          end).
  destruct (reported c) as [r|]; [apply last_cons |].
  destruct (last (omap reported rest)); reflexivity.
Qed.

Lemma finish_after_terminal chunks (prev : option string) :
  finish_after chunks prev =
  match terminal_finish_reason chunks with
  | Some r => Some r
  | None => prev
  end.
Proof.
  revert prev. induction chunks as [|c rest IH]; intros prev; [reflexivity |].
  rewrite terminal_finish_reason_cons.
  change (finish_after (c :: rest) prev)
    with (finish_after rest (next_finish_reason c prev)).
  rewrite IH. destruct (terminal_finish_reason rest); [reflexivity |].
  unfold next_finish_reason, reported.
  destruct (finish_reason c) as [r|]; simpl; [| reflexivity].
  destruct (Py.truthy r); reflexivity.
Qed.

Lemma text_events_all_text chunks : Forall (λ e, is_text e = true) (text_events chunks).
Proof.
  unfold text_events. induction chunks as [|c rest IH]; simpl; [constructor |].
  apply Forall_app. split; [| exact IH].
  unfold delta_events. destruct (delta_content c) as [d|]; [| constructor].
  destruct (Py.truthy d); repeat constructor.
Qed.

Lemma text_events_truthy chunks :
  Forall (λ e, Py.truthy (wire e) = true) (text_events chunks).
Proof.
  unfold text_events. induction chunks as [|c rest IH]; simpl; [constructor |].
  apply Forall_app. split; [| exact IH].
  unfold delta_events. destruct (delta_content c) as [d|]; [| constructor].
  destruct (Py.truthy d) eqn:Hd; repeat constructor. exact Hd.
Qed.

(** *** The adapters, run against a given backend *)

Lemma stream_openai_run W prompt config :
  stream_openai W prompt config =
  let r := create_args async_openai_client (primary_model config) prompt config None true in
  match chat_create_stream W r with
  | inl e => mkRun [] [ChatCreate r] (inl e)
  | inr s => mkRun (openai_events s) [ChatCreate r] (stream_end s)
  end.
Proof.
  unfold stream_openai. cbv zeta. rewrite run_bind_eq. simpl.
  destruct (chat_create_stream W _) as [e | s]; [reflexivity |].
  rewrite run_bind_eq, finish_loop_run. simpl.
  unfold openai_events, truncation_events, stream_end.
  destruct (failure s); simpl; [by rewrite app_nil_r |].
  rewrite yield_truncated_run, finish_after_terminal. simpl.
  by destruct (terminal_finish_reason (chunks s)).
Qed.

Lemma stream_huggingface_run W prompt config :
  stream_huggingface W prompt config =
  let r := create_args hf_client (primary_model config) prompt config None true in
  match chat_create_stream W r with
  | inl e => mkRun [] [ChatCreate r] (inl e)
  | inr s => mkRun (text_events (chunks s)) [ChatCreate r] (stream_end s)
  end.
Proof.
  unfold stream_huggingface. cbv zeta. rewrite run_bind_eq. simpl.
  destruct (chat_create_stream W _) as [e | s]; [reflexivity |].
  rewrite plain_loop_run. reflexivity.
Qed.

Lemma yield_model_run first_chunk rest :
  yield_model first_chunk = mkRun (model_events (first_chunk :: rest)) [] (inr ()).
Proof.
  unfold yield_model, model_events.
  destruct (chunk_model first_chunk) as [m|]; [| reflexivity].
  destruct (Py.truthy m); reflexivity.
Qed.

Lemma stream_openrouter_run W prompt config selected_model :
  stream_openrouter W prompt config selected_model =
  let r := create_args async_openrouter_client
             (Py.or_else selected_model (primary_model config)) prompt config
             (Some (build_openrouter_extra config)) true in
  match chat_create_stream W r with
  | inl e => mkRun [] [ChatCreate r] (inl e)
  | inr s => mkRun (openrouter_events s) [ChatCreate r] (stream_end s)
  end.
Proof.
  unfold stream_openrouter. cbv zeta. rewrite run_bind_eq. simpl.
  destruct (chat_create_stream W _) as [e | [cs fl]]; [reflexivity |].
  unfold openrouter_events, truncation_events, stream_end. simpl.
  destruct cs as [|c rest]; simpl.
  - destruct fl; reflexivity.
  - rewrite !run_bind_eq, (yield_model_run c rest), yield_delta_run,
      finish_loop_run. simpl.
    change (text_events (c :: rest)) with (delta_events c ++ text_events rest).
    destruct fl; simpl.
    + by rewrite !app_nil_r.
    + rewrite yield_truncated_run, finish_after_terminal. simpl.
      rewrite <- !app_assoc.
      by destruct (terminal_finish_reason rest).
Qed.

(** *** The orchestrator's relay loop *)

Lemma for_items_append (body : CompletionEvent → list string → Run CompletionEvent (list string)) :
  (∀ x buffer, body x buffer = mkRun [x] [] (inr (buffer ++ [wire x]))) →
  ∀ items buffer,
    for_items items body buffer = mkRun items [] (inr (buffer ++ (wire <$> items))).
Proof.
  intros Hbody items. induction items as [|x rest IH]; intros buffer.
  - simpl. by rewrite app_nil_r.
  - cbn [for_items]. rewrite run_bind_eq, Hbody. simpl.
    rewrite IH. simpl. by rewrite <- app_assoc.
Qed.

Lemma for_items_relay items buffer :
  for_items items
    (λ chunk buffer, _ ← yield_ chunk; mret (buffer ++ [wire chunk])) buffer
  = mkRun items [] (inr (buffer ++ (wire <$> items))).
Proof. apply for_items_append. reflexivity. Qed.

Lemma relay_run (g : Run CompletionEvent unit) :
  relay g =
  mkRun (yielded g) (calls g)
    (match outcome g with
     | inl e => inl e
     | inr _ => inr (wire <$> yielded g)
     end).
Proof.
  unfold relay, async_for_gen. rewrite !run_bind_eq. simpl.
  rewrite for_items_relay. simpl.
  destruct (outcome g); simpl; by rewrite !app_nil_r.
Qed.

Lemma relay_discard (g : Run CompletionEvent unit) :
  (_ ← relay g; mret ()) = g.
Proof.
  rewrite run_bind_eq, relay_run. simpl.
  destruct g as [ys cs [e | []]]; simpl; [reflexivity |].
  by rewrite !app_nil_r.
Qed.

Lemma stream_gen_openrouter W provider prompt config selected_model :
  stream_gen W provider "openrouter" prompt config selected_model =
  let g := stream_openrouter W prompt config selected_model in
  let full_output := join (wire <$> yielded g) in
  match outcome g with
  | inl e => mkRun (yielded g ++ [Error]) (calls g) (inr ())
  | inr _ =>
      match evaluate_metrics W full_output prompt with
      | inl e =>
          mkRun (yielded g ++ [Error])
                (calls g ++ [EvaluateMetrics full_output prompt]) (inr ())
      | inr _ =>
          mkRun (yielded g) (calls g ++ [EvaluateMetrics full_output prompt]) (inr ())
      end
  end.
Proof.
  unfold stream_gen.
  decide_literals.
  cbv zeta. unfold try_except. rewrite run_bind_eq, relay_run. simpl.
  destruct (outcome (stream_openrouter W prompt config selected_model)); simpl.
  - by rewrite app_nil_r.
  - destruct (evaluate_metrics W _ prompt) as [e | []]; simpl;
      by rewrite ?app_nil_r.
Qed.

Lemma stream_gen_openai W provider prompt config selected_model :
  stream_gen W provider "openai" prompt config selected_model =
  stream_openai W prompt config.
Proof.
  unfold stream_gen.
  decide_literals.
  apply relay_discard.
Qed.

Lemma stream_gen_huggingface W provider prompt config selected_model :
  stream_gen W provider "huggingface" prompt config selected_model =
  stream_huggingface W prompt config.
Proof.
  unfold stream_gen.
  decide_literals.
  apply relay_discard.
Qed.

(** *** Events of the adapters *)

Lemma text_events_no_marker chunks e :
  e ∈ text_events chunks → is_text e = true.
Proof.
  intros Hin. pose proof (text_events_all_text chunks) as Hall.
  rewrite Forall_forall in Hall. by apply Hall.
Qed.

Lemma model_events_shape chunks e :
  e ∈ model_events chunks → ∃ m, e = ModelSelected m ∧ Py.truthy m = true.
Proof.
  unfold model_events. destruct chunks as [|c rest]; [by intros ?%elem_of_nil |].
  destruct (chunk_model c) as [m|]; [| by intros ?%elem_of_nil].
  destruct (Py.truthy m) eqn:Hm; [| by intros ?%elem_of_nil].
  intros ->%list_elem_of_singleton. eauto.
Qed.

Lemma no_truncated_before_marker chunks :
  Truncated ∉ model_events chunks ++ text_events chunks.
Proof.
  intros [Hin | Hin]%elem_of_app.
  - apply model_events_shape in Hin as (m & Hm & _). discriminate.
  - apply text_events_no_marker in Hin. discriminate.
Qed.

Lemma no_truncated_in_text chunks : Truncated ∉ text_events chunks.
Proof. intros Hin%text_events_no_marker. discriminate. Qed.

Lemma terminal_tail_silent chunks :
  first_chunk_silent chunks →
  terminal_finish_reason (tail chunks) = terminal_finish_reason chunks.
Proof.
  destruct chunks as [|c rest]; [reflexivity |]. simpl. intros Hsilent.
  rewrite terminal_finish_reason_cons. unfold reported. rewrite Hsilent.
  by destruct (terminal_finish_reason rest).
Qed.

(** *** The claims about the adapters *)

(** C2 (as amended). On a stream that ends normally: the openai adapter, and
    the openrouter adapter when the first chunk reports no finish-reason, end
    their sequence with exactly one [Truncated] event when the last reported
    finish-reason is "length", and emit no [Truncated] event otherwise; the
    huggingface adapter never emits a [Truncated] event. *)
Theorem truncation_marker_by_adapter (W : World) (prompt : string)
    (config : ModelConfig) (selected_model : option string) (cs : list Chunk) :
  (∀ r, chat_create_stream W r = inr (mkStream cs None)) →
  ((terminal_finish_reason cs = Some "length" →
      ends_with_one_truncated (yielded (stream_openai W prompt config)))
   ∧ (terminal_finish_reason cs ≠ Some "length" →
      Truncated ∉ yielded (stream_openai W prompt config)))
  ∧ (first_chunk_silent cs →
      (terminal_finish_reason cs = Some "length" →
         ends_with_one_truncated
           (yielded (stream_openrouter W prompt config selected_model)))
      ∧ (terminal_finish_reason cs ≠ Some "length" →
         Truncated ∉ yielded (stream_openrouter W prompt config selected_model)))
  ∧ Truncated ∉ yielded (stream_huggingface W prompt config).
Proof.
  intros HW.
  rewrite stream_openai_run, stream_openrouter_run, stream_huggingface_run.
  cbv zeta. rewrite !HW. simpl.
  unfold openai_events, openrouter_events, truncation_events. simpl.
  split; [| split].
  - split; intros Hfin.
    + exists (text_events cs). rewrite decide_True by done.
      split; [reflexivity | apply no_truncated_in_text].
    + rewrite decide_False, app_nil_r by done. apply no_truncated_in_text.
  - intros Hsilent. rewrite (terminal_tail_silent cs Hsilent).
    split; intros Hfin.
    + exists (model_events cs ++ text_events cs). rewrite decide_True by done.
      split; [by rewrite app_assoc | apply no_truncated_before_marker].
    + rewrite decide_False, app_nil_r by done. apply no_truncated_before_marker.
  - apply no_truncated_in_text.
Qed.

Lemma truncation_marker_by_adapter_witness :
  let W := hello_world (Some "length") None (inr ()) in
  let cs := hello_chunks (Some "length") in
  let config := config_with "gpt-4o-mini" [] in
  (terminal_finish_reason cs = Some "length" ∧ first_chunk_silent cs)
  ∧ ends_with_one_truncated (yielded (stream_openai W "prompt" config))
  ∧ ends_with_one_truncated (yielded (stream_openrouter W "prompt" config None))
  ∧ Truncated ∉ yielded (stream_huggingface W "prompt" config).
Proof.
  intros W cs config.
  assert (Hterminal : terminal_finish_reason cs = Some "length") by reflexivity.
  assert (Hsilent : first_chunk_silent cs) by reflexivity.
  destruct (truncation_marker_by_adapter W "prompt" config None cs)
    as ([Hopenai _] & Hopenrouter & Hhf).
  { intros r. reflexivity. }
  split; [by split |].
  split; [by apply Hopenai |].
  split; [by apply Hopenrouter | exact Hhf].
Defined.

Example stream_openai_truncated :
  yielded (stream_openai (hello_world (Some "length") None (inr ())) "prompt"
             (config_with "gpt-4o-mini" []))
  = [Text "Hel"; Text "lo"; Truncated].
Proof. vm_compute. reflexivity. Qed.

Example stream_openrouter_truncated :
  wire <$> yielded (stream_openrouter (hello_world (Some "length") None (inr ()))
                      "prompt" (config_with "openai/gpt-oss-20b:free" []) None)
  = ["__model_used__:served/model"; "Hel"; "lo"; "__truncated__"].
Proof. vm_compute. reflexivity. Qed.

(** The finish-reason of the first chunk is never read by the openrouter
    adapter: a one-chunk stream cut by the length limit ends unmarked. *)
Example stream_openrouter_first_chunk_unread :
  yielded (stream_openrouter
             (mkWorld (λ _ q, q) (λ _, inl boom)
                (λ _, inr (mkStream [mkChunk None (Some "Hello") (Some "length")] None))
                (λ _ _, inr ()))
             "prompt" (config_with "openai/gpt-oss-20b:free" []) None)
  = [Text "Hello"].
Proof. vm_compute. reflexivity. Qed.

(** C2, counterexample. The huggingface adapter, on a stream whose last chunk
    reports the finish-reason "length", yields the two fragments and no
    [Truncated] event. *)
Lemma huggingface_length_cutoff_unmarked :
  terminal_finish_reason (hello_chunks (Some "length")) = Some "length"
  ∧ yielded (stream_huggingface (hello_world (Some "length") None (inr ()))
               "prompt" (config_with "deepseek-ai/DeepSeek-R1" []))
    = [Text "Hel"; Text "lo"]
  ∧ ¬ ends_with_one_truncated
        (yielded (stream_huggingface (hello_world (Some "length") None (inr ()))
                    "prompt" (config_with "deepseek-ai/DeepSeek-R1" []))).
Proof.
  split; [reflexivity |]. split; [reflexivity |].
  intros (body & Heq & _).
  assert (Hlast : last (body ++ [Truncated]) = Some (Text "lo")).
  { rewrite <- Heq. reflexivity. }
  rewrite last_snoc in Hlast. discriminate.
Qed.

(** C10. Every string an adapter yields is non-empty, and in particular every
    [Text] event carries a non-empty fragment: a delta whose content is
    [None] or empty is not yielded. *)
Theorem adapters_yield_nonempty (W : World) (prompt : string)
    (config : ModelConfig) (selected_model : option string) :
  Forall (λ e, Py.truthy (wire e) = true) (yielded (stream_openai W prompt config))
  ∧ Forall (λ e, Py.truthy (wire e) = true)
      (yielded (stream_openrouter W prompt config selected_model))
  ∧ Forall (λ e, Py.truthy (wire e) = true)
      (yielded (stream_huggingface W prompt config)).
Proof.
  rewrite stream_openai_run, stream_openrouter_run, stream_huggingface_run.
  cbv zeta.
  assert (Htrunc : ∀ s considered,
    Forall (λ e, Py.truthy (wire e) = true) (truncation_events s considered)).
  { intros s considered. unfold truncation_events.
    destruct (failure s); [constructor |].
    destruct (decide _); repeat constructor. }
  assert (Hmodel : ∀ chunks,
    Forall (λ e, Py.truthy (wire e) = true) (model_events chunks)).
  { intros chunks. apply Forall_forall. intros e (m & -> & Hm)%model_events_shape.
    reflexivity. }
  split; [| split].
  - destruct (chat_create_stream W _) as [e | s]; simpl; [constructor |].
    apply Forall_app. split; [apply text_events_truthy | apply Htrunc].
  - destruct (chat_create_stream W _) as [e | s]; simpl; [constructor |].
    unfold openrouter_events. rewrite !Forall_app.
    split; [apply Hmodel |]. split; [apply text_events_truthy | apply Htrunc].
  - destruct (chat_create_stream W _) as [e | s]; simpl; [constructor |].
    apply text_events_truthy.
Qed.

Example empty_deltas_dropped :
  yielded (stream_huggingface
             (mkWorld (λ _ q, q) (λ _, inl boom)
                (λ _, inr (mkStream [mkChunk None None None;
                                     mkChunk None (Some "") None;
                                     mkChunk None (Some "Hi") (Some "stop")] None))
                (λ _ _, inr ()))
             "prompt" (config_with "deepseek-ai/DeepSeek-R1" []))
  = [Text "Hi"].
Proof. vm_compute. reflexivity. Qed.

(** *** The orchestrator on a failing stream *)

Lemma filter_text_events chunks :
  List.filter is_text (text_events chunks) = text_events chunks.
Proof.
  pose proof (text_events_all_text chunks) as Hall.
  induction Hall as [|e l He _ IH]; simpl; [reflexivity |].
  by rewrite He, IH.
Qed.

Lemma filter_model_events chunks : List.filter is_text (model_events chunks) = [].
Proof.
  unfold model_events. destruct chunks as [|c rest]; [reflexivity |].
  destruct (chunk_model c) as [m|]; [| reflexivity].
  destruct (Py.truthy m); reflexivity.
Qed.

(** C3 (as amended). When the backend raises after delivering the chunks
    [cs]: through the openrouter branch, the generator yields the events
    emitted so far, whose [Text] events are those of the fragments received,
    followed by exactly one [Error] event, and then ends normally; through the
    openai and huggingface branches it yields the [Text] events of the
    fragments received and then raises the backend's exception, with no
    [Error] event. *)
Theorem backend_failure_midstream (W : World) (provider prompt : string)
    (config : ModelConfig) (selected_model : option string)
    (cs : list Chunk) (e : PyExn) :
  (∀ r, chat_create_stream W r = inr (mkStream cs (Some e))) →
  (∃ emitted,
      yielded (stream_gen W provider "openrouter" prompt config selected_model)
        = emitted ++ [Error]
      ∧ (Error ∉ emitted)
      ∧ List.filter is_text emitted = text_events cs
      ∧ outcome (stream_gen W provider "openrouter" prompt config selected_model)
        = inr ())
  ∧ (yielded (stream_gen W provider "openai" prompt config selected_model)
       = text_events cs
     ∧ outcome (stream_gen W provider "openai" prompt config selected_model)
       = inl e)
  ∧ (yielded (stream_gen W provider "huggingface" prompt config selected_model)
       = text_events cs
     ∧ outcome (stream_gen W provider "huggingface" prompt config selected_model)
       = inl e).
Proof.
  intros HW.
  rewrite stream_gen_openrouter, stream_gen_openai, stream_gen_huggingface.
  rewrite stream_openai_run, stream_openrouter_run, stream_huggingface_run.
  cbv zeta. rewrite !HW. simpl.
  unfold openai_events, openrouter_events, truncation_events. simpl.
  rewrite !app_nil_r.
  split; [| by split].
  exists (model_events cs ++ text_events cs). split; [reflexivity |].
  split; [| split; [| reflexivity]].
  - intros [Hin | Hin]%elem_of_app.
    + apply model_events_shape in Hin as (m & Hm & _). discriminate.
    + apply text_events_no_marker in Hin. discriminate.
  - by rewrite List.filter_app, filter_model_events, filter_text_events.
Qed.

Lemma backend_failure_midstream_witness :
  let W := hello_world None (Some boom) (inr ()) in
  let config := config_with "openai/gpt-oss-20b:free" [] in
  let cs := hello_chunks None in
  (∃ emitted,
      yielded (stream_gen W "OpenRouter" "openrouter" "prompt" config None)
        = emitted ++ [Error]
      ∧ (Error ∉ emitted)
      ∧ List.filter is_text emitted = text_events cs
      ∧ outcome (stream_gen W "OpenRouter" "openrouter" "prompt" config None)
        = inr ())
  ∧ (yielded (stream_gen W "OpenRouter" "openai" "prompt" config None)
       = text_events cs
     ∧ outcome (stream_gen W "OpenRouter" "openai" "prompt" config None)
       = inl boom)
  ∧ (yielded (stream_gen W "OpenRouter" "huggingface" "prompt" config None)
       = text_events cs
     ∧ outcome (stream_gen W "OpenRouter" "huggingface" "prompt" config None)
       = inl boom).
Proof.
  intros W config cs.
  apply (backend_failure_midstream W "OpenRouter" "prompt" config None cs boom).
  intros r. reflexivity.
Defined.

Example stream_gen_openrouter_failure :
  (stream_gen (hello_world None (Some boom) (inr ())) "openrouter" "openrouter"
     "prompt" (config_with "openai/gpt-oss-20b:free" []) None).(yielded)
  = [ModelSelected "served/model"; Text "Hel"; Text "lo"; Error].
Proof. vm_compute. reflexivity. Qed.

(** C3, counterexample. With the huggingface provider of the default
    registry and a backend that raises after two fragments, the generator
    yields the two [Text] events and raises: no [Error] event is produced. *)
Lemma huggingface_failure_not_reported :
  ∃ g, get_streaming_function (hello_world None (Some boom) (inr ()))
         MODEL_REGISTRY "huggingface" "query" [] None = inr g
       ∧ yielded g = [Text "Hel"; Text "lo"]
       ∧ outcome g = inl boom
       ∧ Error ∉ yielded g.
Proof.
  eexists. split; [vm_compute; reflexivity |]. simpl.
  split; [reflexivity |]. split; [reflexivity |].
  intros Hin. repeat (apply elem_of_cons in Hin as [Hin | Hin]; [discriminate |]).
  by apply elem_of_nil in Hin.
Qed.

(** *** Provider resolution *)

Lemma get_config_lookup registry provider :
  get_config registry provider =
  match models registry !! Py.lower provider with
  | None => inl (ValueError ("ModelConfig not found for provider: " +:+ provider))
  | Some config => inr config
  end.
Proof. reflexivity. Qed.

Lemma get_config_lower registry provider config :
  get_config registry (Py.lower provider) = inr config ↔
  models registry !! Py.lower provider = Some config.
Proof.
  rewrite get_config_lookup, lower_idemp.
  destruct (models registry !! Py.lower provider); split; congruence.
Qed.

(** C4. Resolution looks the name up after lowercasing it, so two names with
    the same lowercase form resolve alike; and when the lowercase form is not
    a key of the registry, [generate_answer] raises [ValueError] having made
    no call at all, and [get_streaming_function] raises [ValueError] before
    any generator exists. *)
Theorem unknown_provider_rejected (W : World) (registry : ModelRegistry)
    (query : string) (contexts : list Search.SearchResult) (provider : string)
    (selected_model : option string) :
  (∀ provider', Py.lower provider' = Py.lower provider →
     ∀ config, get_config registry provider' = inr config
               ↔ get_config registry provider = inr config)
  ∧ (models registry !! Py.lower provider = None →
     generate_answer W registry query contexts provider selected_model
       = mkRun [] []
           (inl (ValueError ("ModelConfig not found for provider: "
                             +:+ Py.lower provider)))
     ∧ get_streaming_function W registry provider query contexts selected_model
       = inl (ValueError ("ModelConfig not found for provider: "
                          +:+ Py.lower provider))).
Proof.
  split.
  - intros provider' Hlower config. rewrite !get_config_lookup, Hlower.
    destruct (models registry !! Py.lower provider); split; congruence.
  - intros Hunknown. split.
    + unfold generate_answer. cbv zeta.
      rewrite get_config_lookup, lower_idemp, Hunknown. reflexivity.
    + unfold get_streaming_function. cbv zeta.
      rewrite get_config_lookup, lower_idemp, Hunknown. reflexivity.
Qed.

Lemma unknown_provider_rejected_witness :
  let W := hello_world None None (inr ()) in
  (∀ provider', Py.lower provider' = Py.lower "Not-A-Real-Provider" →
     ∀ config, get_config MODEL_REGISTRY provider' = inr config
               ↔ get_config MODEL_REGISTRY "Not-A-Real-Provider" = inr config)
  ∧ models MODEL_REGISTRY !! Py.lower "Not-A-Real-Provider" = None
  ∧ generate_answer W MODEL_REGISTRY "query" [] "Not-A-Real-Provider" None
    = mkRun [] []
        (inl (ValueError "ModelConfig not found for provider: not-a-real-provider"))
  ∧ get_streaming_function W MODEL_REGISTRY "Not-A-Real-Provider" "query" [] None
    = inl (ValueError "ModelConfig not found for provider: not-a-real-provider").
Proof.
  intros W.
  destruct (unknown_provider_rejected W MODEL_REGISTRY "query" []
              "Not-A-Real-Provider" None) as [Hsame Hunknown].
  split; [exact Hsame |]. split; [reflexivity |].
  apply Hunknown. reflexivity.
Defined.

Example resolve_mixed_case :
  get_config MODEL_REGISTRY "OpenRouter" = get_config MODEL_REGISTRY "openrouter"
  ∧ get_config MODEL_REGISTRY "HuggingFace"
    = inr (config_with "deepseek-ai/DeepSeek-R1" []).
Proof. split; vm_compute; reflexivity. Qed.

Example unknown_provider_no_call :
  generate_answer (hello_world None None (inr ())) MODEL_REGISTRY "query" []
    "not-a-real-provider" None
  = mkRun [] []
      (inl (ValueError "ModelConfig not found for provider: not-a-real-provider")).
Proof. vm_compute. reflexivity. Qed.

(** "openai" is not a key of the default registry either. *)
Example openai_not_registered :
  get_streaming_function (hello_world None None (inr ())) MODEL_REGISTRY
    "openai" "query" [] None
  = inl (ValueError "ModelConfig not found for provider: openai").
Proof. vm_compute. reflexivity. Qed.

(** *** The batch adapters and [generate_answer] *)

Lemma generate_openai_run W prompt config :
  generate_openai W prompt config =
  let r := create_args async_openai_client "gpt-4o-mini" prompt config None false in
  mkRun [] [ChatCreate r]
    (match chat_create W r with
     | inl e => inl e
     | inr resp => inr (Py.or_else (message_content resp) "", None)
     end).
Proof.
  unfold generate_openai. rewrite run_bind_eq. simpl.
  destruct (chat_create W _); reflexivity.
Qed.

Lemma generate_huggingface_run W prompt config :
  generate_huggingface W prompt config =
  let r := create_args hf_client (primary_model config) prompt config None false in
  mkRun [] [ChatCreate r]
    (match chat_create W r with
     | inl e => inl e
     | inr resp => inr (Py.or_else (message_content resp) "", None)
     end).
Proof.
  unfold generate_huggingface. rewrite run_bind_eq. simpl.
  destruct (chat_create W _); reflexivity.
Qed.

Lemma generate_openrouter_run W prompt config selected_model :
  generate_openrouter W prompt config selected_model =
  let r := create_args async_openrouter_client
             (Py.or_else selected_model (primary_model config)) prompt config
             (Some (build_openrouter_extra config)) false in
  mkRun [] [ChatCreate r]
    (match chat_create W r with
     | inl e => inl e
     | inr resp =>
         inr (Py.or_else (message_content resp) "",
              (if Py.truthy_opt (choice_model resp) then choice_model resp
               else response_model resp),
              native_finish_reason resp)
     end).
Proof.
  unfold generate_openrouter. cbv zeta. rewrite run_bind_eq. simpl.
  destruct (chat_create W _); reflexivity.
Qed.

(** The openrouter branch of [generate_answer]: the adapter's call, then the
    evaluation inside the same [try] block, whose exception is re-raised. *)
Lemma generate_answer_openrouter W registry query contexts provider selected_model config :
  Py.lower provider = "openrouter" →
  get_config registry "openrouter" = inr config →
  generate_answer W registry query contexts provider selected_model =
  let prompt := build_research_prompt W contexts query in
  let g := generate_openrouter W prompt config selected_model in
  match outcome g with
  | inl e => mkRun [] (calls g) (inl e)
  | inr (answer, model_used, finish_reason) =>
      mkRun [] (calls g ++ [EvaluateMetrics answer prompt])
        (match evaluate_metrics W answer prompt with
         | inl e => inl e
         | inr _ =>
             inr (mkAnswer answer (Search.url <$> contexts) model_used finish_reason)
         end)
  end.
Proof.
  intros Hlower Hconfig. unfold generate_answer. cbv zeta.
  rewrite Hlower, Hconfig.
  decide_literals.
  rewrite of_result_bind, generate_openrouter_run. cbv zeta.
  unfold try_except. rewrite !run_bind_eq. simpl.
  destruct (chat_create W _) as [e | resp]; simpl; [reflexivity |].
  destruct (evaluate_metrics W _ _) as [e | []]; reflexivity.
Qed.

Lemma generate_answer_huggingface W registry query contexts provider selected_model config :
  Py.lower provider = "huggingface" →
  get_config registry "huggingface" = inr config →
  generate_answer W registry query contexts provider selected_model =
  let prompt := build_research_prompt W contexts query in
  let g := generate_huggingface W prompt config in
  mkRun [] (calls g)
    (match outcome g with
     | inl e => inl e
     | inr (answer, model_used) =>
         inr (mkAnswer answer (Search.url <$> contexts) model_used None)
     end).
Proof.
  intros Hlower Hconfig. unfold generate_answer. cbv zeta.
  rewrite Hlower, Hconfig.
  decide_literals.
  rewrite of_result_bind, generate_huggingface_run. cbv zeta.
  rewrite !run_bind_eq. simpl.
  destruct (chat_create W _) as [e | resp]; reflexivity.
Qed.

Lemma generate_answer_openai W registry query contexts provider selected_model config :
  Py.lower provider = "openai" →
  get_config registry "openai" = inr config →
  generate_answer W registry query contexts provider selected_model =
  let prompt := build_research_prompt W contexts query in
  let g := generate_openai W prompt config in
  mkRun [] (calls g)
    (match outcome g with
     | inl e => inl e
     | inr (answer, model_used) =>
         inr (mkAnswer answer (Search.url <$> contexts) model_used None)
     end).
Proof.
  intros Hlower Hconfig. unfold generate_answer. cbv zeta.
  rewrite Hlower, Hconfig.
  decide_literals.
  rewrite of_result_bind, generate_openai_run. cbv zeta.
  rewrite !run_bind_eq. simpl.
  destruct (chat_create W _) as [e | resp]; reflexivity.
Qed.

(** *** The text a stream carries *)

Lemma string_app_nil_r (a : string) : a +:+ "" = a.
Proof.
  induction a as [|x a IH]; [reflexivity |].
  change (String x (a +:+ "") = String x a). by rewrite IH.
Qed.

Lemma text_of_app xs ys : text_of (xs ++ ys) = text_of xs +:+ text_of ys.
Proof.
  induction xs as [|x xs IH]; [reflexivity |].
  destruct x; simpl; try exact IH.
  by rewrite IH, string_app_assoc.
Qed.

Lemma text_of_delta_events c : text_of (delta_events c) = default "" (delta_content c).
Proof.
  unfold delta_events. destruct (delta_content c) as [d|]; [| reflexivity].
  destruct d as [|x d]; [reflexivity |]. simpl. apply string_app_nil_r.
Qed.

Lemma text_of_text_events cs : text_of (text_events cs) = join_deltas cs.
Proof.
  induction cs as [|c rest IH]; [reflexivity |].
  change (text_events (c :: rest)) with (delta_events c ++ text_events rest).
  rewrite text_of_app, text_of_delta_events, IH. reflexivity.
Qed.

Lemma text_of_model_events cs : text_of (model_events cs) = "".
Proof.
  unfold model_events. destruct cs as [|c rest]; [reflexivity |].
  destruct (chunk_model c) as [m|]; [| reflexivity].
  destruct (Py.truthy m); reflexivity.
Qed.

Lemma text_of_truncation_events s considered :
  text_of (truncation_events s considered) = "".
Proof.
  unfold truncation_events. destruct (failure s); [reflexivity |].
  destruct (decide _); reflexivity.
Qed.

Lemma text_of_openai_events s : text_of (openai_events s) = join_deltas (chunks s).
Proof.
  unfold openai_events.
  by rewrite text_of_app, text_of_text_events, text_of_truncation_events,
    string_app_nil_r.
Qed.

Lemma text_of_openrouter_events s :
  text_of (openrouter_events s) = join_deltas (chunks s).
Proof.
  unfold openrouter_events.
  by rewrite !text_of_app, text_of_model_events, text_of_text_events,
    text_of_truncation_events, string_app_nil_r.
Qed.

(** The text of the orchestrator's stream, for a backend whose streams end
    normally. *)
Lemma stream_gen_text W provider provider_lower prompt config selected_model A :
  provider_lower ∈ ["openai"; "openrouter"; "huggingface"] →
  (∀ r, ∃ cs, chat_create_stream W r = inr (mkStream cs None) ∧ join_deltas cs = A) →
  text_of (yielded (stream_gen W provider provider_lower prompt config selected_model)) = A.
Proof.
  intros Hknown Hstream.
  rewrite !elem_of_cons, elem_of_nil in Hknown.
  destruct Hknown as [-> | [-> | [-> | []]]].
  - rewrite stream_gen_openai, stream_openai_run. cbv zeta.
    destruct (Hstream (create_args async_openai_client (primary_model config)
                         prompt config None true)) as (cs & -> & <-).
    apply text_of_openai_events.
  - rewrite stream_gen_openrouter, stream_openrouter_run. cbv zeta.
    destruct (Hstream (create_args async_openrouter_client
                         (Py.or_else selected_model (primary_model config))
                         prompt config (Some (build_openrouter_extra config)) true))
      as (cs & -> & <-).
    simpl. destruct (evaluate_metrics W _ prompt); simpl.
    + by rewrite text_of_app, text_of_openrouter_events, string_app_nil_r.
    + apply text_of_openrouter_events.
  - rewrite stream_gen_huggingface, stream_huggingface_run. cbv zeta.
    destruct (Hstream (create_args hf_client (primary_model config)
                         prompt config None true)) as (cs & -> & <-).
    apply text_of_text_events.
Qed.

(** What the batch call returns, for a backend whose answer is [A]. *)
Lemma generate_answer_text W registry query contexts provider selected_model config A :
  get_config registry (Py.lower provider) = inr config →
  Py.lower provider ∈ ["openai"; "openrouter"; "huggingface"] →
  (∀ r, ∃ resp, chat_create W r = inr resp
                ∧ Py.or_else (message_content resp) "" = A) →
  (∀ a, outcome (generate_answer W registry query contexts provider selected_model)
          = inr a → answer a = A)
  ∧ ((∀ out prompt, evaluate_metrics W out prompt = inr ()) →
     ∃ a, outcome (generate_answer W registry query contexts provider selected_model)
          = inr a).
Proof.
  intros Hconfig Hknown Hbatch.
  rewrite !elem_of_cons, elem_of_nil in Hknown.
  destruct Hknown as [Hp | [Hp | [Hp | []]]]; rewrite Hp in Hconfig.
  - rewrite (generate_answer_openai _ _ _ _ _ _ _ Hp Hconfig). cbv zeta.
    rewrite generate_openai_run. cbv zeta. simpl.
    destruct (Hbatch (create_args async_openai_client "gpt-4o-mini"
                        (build_research_prompt W contexts query) config None false))
      as (resp & -> & <-).
    split; [by intros a [= <-] | eauto].
  - rewrite (generate_answer_openrouter _ _ _ _ _ _ _ Hp Hconfig). cbv zeta.
    rewrite generate_openrouter_run. cbv zeta. simpl.
    destruct (Hbatch (create_args async_openrouter_client
                        (Py.or_else selected_model (primary_model config))
                        (build_research_prompt W contexts query) config
                        (Some (build_openrouter_extra config)) false))
      as (resp & -> & <-).
    simpl. split.
    + intros a. destruct (evaluate_metrics W _ _); [discriminate |].
      by intros [= <-].
    + intros Heval. rewrite Heval. eauto.
  - rewrite (generate_answer_huggingface _ _ _ _ _ _ _ Hp Hconfig). cbv zeta.
    rewrite generate_huggingface_run. cbv zeta. simpl.
    destruct (Hbatch (create_args hf_client (primary_model config)
                        (build_research_prompt W contexts query) config None false))
      as (resp & -> & <-).
    split; [by intros a [= <-] | eauto].
Qed.

(** C5. For a registered provider and a backend that returns the answer [A]
    in batch mode and delivers the same text as fragments in streaming mode,
    the streaming generator is obtained and the concatenation of its [Text]
    events is [A]; whatever [generate_answer] returns has that same text as
    its answer; and [generate_answer] does return when the evaluation step
    does not raise. *)
Theorem batch_and_stream_same_text (W : World) (registry : ModelRegistry)
    (query : string) (contexts : list Search.SearchResult) (provider : string)
    (selected_model : option string) (config : ModelConfig) (A : string) :
  get_config registry (Py.lower provider) = inr config →
  Py.lower provider ∈ ["openai"; "openrouter"; "huggingface"] →
  (∀ r, ∃ resp, chat_create W r = inr resp
                ∧ Py.or_else (message_content resp) "" = A) →
  (∀ r, ∃ cs, chat_create_stream W r = inr (mkStream cs None)
              ∧ join_deltas cs = A) →
  ∃ g, get_streaming_function W registry provider query contexts selected_model
         = inr g
       ∧ text_of (yielded g) = A
       ∧ (∀ a, outcome (generate_answer W registry query contexts provider
                          selected_model) = inr a →
               answer a = text_of (yielded g))
       ∧ ((∀ out prompt, evaluate_metrics W out prompt = inr ()) →
          ∃ a, outcome (generate_answer W registry query contexts provider
                          selected_model) = inr a).
Proof.
  intros Hconfig Hknown Hbatch Hstream.
  unfold get_streaming_function. cbv zeta. rewrite Hconfig.
  eexists. split; [reflexivity |].
  pose proof (stream_gen_text W provider (Py.lower provider)
                (build_research_prompt W contexts query) config selected_model A
                Hknown Hstream) as Htext.
  destruct (generate_answer_text W registry query contexts provider selected_model
              config A Hconfig Hknown Hbatch) as [Hanswer Hreturns].
  split; [exact Htext |]. split; [| exact Hreturns].
  intros a Ha. rewrite Htext. by apply Hanswer.
Qed.

Lemma batch_and_stream_same_text_witness :
  let W := hello_world (Some "stop") None (inr ()) in
  ∃ g, get_streaming_function W MODEL_REGISTRY "OpenRouter" "query" [] None = inr g
       ∧ text_of (yielded g) = "Hello"
       ∧ (∀ a, outcome (generate_answer W MODEL_REGISTRY "query" [] "OpenRouter" None)
               = inr a →
               answer a = text_of (yielded g))
       ∧ ((∀ out prompt, evaluate_metrics W out prompt = inr ()) →
          ∃ a, outcome (generate_answer W MODEL_REGISTRY "query" [] "OpenRouter" None)
               = inr a).
Proof.
  intros W.
  apply (batch_and_stream_same_text W MODEL_REGISTRY "query" [] "OpenRouter" None
           (config_with "openai/gpt-oss-20b:free"
              ["cognitivecomputations/dolphin-mistral-24b-venice-edition:free";
               "nvidia/nemotron-nano-9b-v2:free"])
           "Hello").
  - vm_compute. reflexivity.
  - vm_compute. apply list_elem_of_further, list_elem_of_here.
  - intros r. eexists. split; reflexivity.
  - intros r. eexists. split; reflexivity.
Defined.

Example batch_and_stream_hello :
  let W := hello_world (Some "stop") None (inr ()) in
  answer <$> (match outcome (generate_answer W MODEL_REGISTRY "query" [] "openrouter" None)
              with inr a => Some a | inl _ => None end) = Some "Hello"
  ∧ (match get_streaming_function W MODEL_REGISTRY "openrouter" "query" [] None with
     | inr g => wire <$> yielded g
     | inl _ => []
     end) = ["__model_used__:served/model"; "Hel"; "lo"].
Proof. split; vm_compute; reflexivity. Qed.

(** *** The model named in a request *)

Lemma requested_generate_openrouter W prompt config selected_model :
  requested_models (calls (generate_openrouter W prompt config selected_model))
  = [Py.or_else selected_model (primary_model config)].
Proof. rewrite generate_openrouter_run. reflexivity. Qed.

Lemma requested_stream_openrouter W prompt config selected_model :
  requested_models (calls (stream_openrouter W prompt config selected_model))
  = [Py.or_else selected_model (primary_model config)].
Proof.
  rewrite stream_openrouter_run. cbv zeta.
  destruct (chat_create_stream W _); reflexivity.
Qed.

Lemma requested_stream_huggingface W prompt config :
  requested_models (calls (stream_huggingface W prompt config))
  = [primary_model config].
Proof.
  rewrite stream_huggingface_run. cbv zeta.
  destruct (chat_create_stream W _); reflexivity.
Qed.

Lemma requested_stream_openai W prompt config :
  requested_models (calls (stream_openai W prompt config)) = [primary_model config].
Proof.
  rewrite stream_openai_run. cbv zeta.
  destruct (chat_create_stream W _); reflexivity.
Qed.

Lemma requested_models_app xs ys :
  requested_models (xs ++ ys) = requested_models xs ++ requested_models ys.
Proof. unfold requested_models. apply omap_app. Qed.

(** C6 (as amended). The openrouter adapter, in batch and in streaming mode,
    requests the override when a non-empty [selected_model] is given and the
    configured primary model when it is [None] or empty. The huggingface
    adapter and [stream_openai] take no override and request the configured
    primary model; through [generate_answer] and through the streaming
    generator the override reaches the openrouter adapter only. *)
Theorem requested_model_by_adapter (W : World) (registry : ModelRegistry)
    (query : string) (contexts : list Search.SearchResult) (provider prompt : string)
    (config : ModelConfig) (selected_model : option string) :
  (∀ m, selected_model = Some m → Py.truthy m = true →
     requested_models (calls (generate_openrouter W prompt config selected_model)) = [m]
     ∧ requested_models (calls (stream_openrouter W prompt config selected_model)) = [m])
  ∧ (Py.truthy_opt selected_model = false →
     requested_models (calls (generate_openrouter W prompt config selected_model))
       = [primary_model config]
     ∧ requested_models (calls (stream_openrouter W prompt config selected_model))
       = [primary_model config])
  ∧ (requested_models (calls (generate_huggingface W prompt config))
       = [primary_model config]
     ∧ requested_models (calls (stream_huggingface W prompt config))
       = [primary_model config]
     ∧ requested_models (calls (stream_openai W prompt config))
       = [primary_model config])
  ∧ (get_config registry "huggingface" = inr config →
     Py.lower provider = "huggingface" →
     requested_models
       (calls (generate_answer W registry query contexts provider selected_model))
       = [primary_model config]
     ∧ requested_models
         (calls (stream_gen W provider "huggingface" prompt config selected_model))
       = [primary_model config])
  ∧ (get_config registry "openrouter" = inr config →
     Py.lower provider = "openrouter" →
     requested_models
       (calls (generate_answer W registry query contexts provider selected_model))
       = [Py.or_else selected_model (primary_model config)]
     ∧ requested_models
         (calls (stream_gen W provider "openrouter" prompt config selected_model))
       = [Py.or_else selected_model (primary_model config)]).
Proof.
  split; [| split; [| split; [| split]]].
  - intros m -> Hm.
    rewrite requested_generate_openrouter, requested_stream_openrouter.
    simpl. by rewrite Hm.
  - intros Hnone.
    rewrite requested_generate_openrouter, requested_stream_openrouter.
    destruct selected_model as [m|]; simpl in *; [by rewrite Hnone | done].
  - rewrite generate_huggingface_run, requested_stream_huggingface,
      requested_stream_openai. done.
  - intros Hconfig Hlower.
    rewrite (generate_answer_huggingface _ _ _ _ _ _ _ Hlower Hconfig). cbv zeta.
    rewrite generate_huggingface_run, stream_gen_huggingface,
      requested_stream_huggingface. done.
  - intros Hconfig Hlower.
    rewrite (generate_answer_openrouter _ _ _ _ _ _ _ Hlower Hconfig). cbv zeta.
    rewrite generate_openrouter_run. cbv zeta. simpl.
    split.
    + destruct (chat_create W _) as [e | resp]; reflexivity.
    + rewrite stream_gen_openrouter. cbv zeta.
      pose proof (requested_stream_openrouter W prompt config selected_model) as Hreq.
      destruct (outcome (stream_openrouter W prompt config selected_model));
        [exact Hreq |].
      destruct (evaluate_metrics W _ prompt); simpl;
        by rewrite requested_models_app, Hreq.
Qed.

Lemma requested_model_by_adapter_witness :
  let W := hello_world (Some "stop") None (inr ()) in
  let config := config_with "openai/gpt-oss-20b:free"
      ["cognitivecomputations/dolphin-mistral-24b-venice-edition:free";
       "nvidia/nemotron-nano-9b-v2:free"] in
  requested_models (calls (generate_openrouter W "prompt" config (Some "my/override")))
    = ["my/override"]
  ∧ requested_models (calls (stream_openrouter W "prompt" config (Some "my/override")))
    = ["my/override"]
  ∧ requested_models
      (calls (generate_answer W MODEL_REGISTRY "query" [] "OpenRouter" (Some "my/override")))
    = ["my/override"]
  ∧ requested_models
      (calls (stream_gen W "OpenRouter" "openrouter" "prompt" config (Some "my/override")))
    = ["my/override"].
Proof.
  intros W config.
  destruct (requested_model_by_adapter W MODEL_REGISTRY "query" [] "OpenRouter"
              "prompt" config (Some "my/override"))
    as (Hoverride & _ & _ & _ & Horchestrated).
  destruct (Hoverride "my/override" eq_refl eq_refl) as [Hbatch Hstream].
  destruct (Horchestrated eq_refl eq_refl) as [Hanswer Hgen].
  split; [exact Hbatch |]. split; [exact Hstream |].
  split; [exact Hanswer | exact Hgen].
Defined.

(** [generate_openai] names a fixed model, whatever the configuration says. *)
Example generate_openai_fixed_model W prompt config :
  requested_models (calls (generate_openai W prompt config)) = ["gpt-4o-mini"].
Proof. rewrite generate_openai_run. reflexivity. Qed.

(** C6, counterexample. With the huggingface provider of the default
    registry, an override supplied to [generate_answer] is not the model
    requested: the configured primary model is. *)
Lemma huggingface_ignores_selected_model :
  requested_models
    (calls (generate_answer (hello_world (Some "stop") None (inr ())) MODEL_REGISTRY
              "query" [] "huggingface" (Some "my/override")))
  = ["deepseek-ai/DeepSeek-R1"]
  ∧ requested_models
      (calls (generate_answer (hello_world (Some "stop") None (inr ())) MODEL_REGISTRY
                "query" [] "huggingface" (Some "my/override")))
    ≠ ["my/override"].
Proof. split; [vm_compute; reflexivity | vm_compute; discriminate]. Qed.

(** *** The evaluation step *)

Lemma evaluated_app xs ys : evaluated (xs ++ ys) = evaluated xs ++ evaluated ys.
Proof. unfold evaluated. apply omap_app. Qed.

(** C7 (as amended). In the openrouter branch the evaluation runs inside the
    [try] block of the generation: when the adapter has returned and the
    evaluation raises [e], [generate_answer] raises [e] and returns no
    answer; when the adapter's stream has ended normally and the evaluation
    raises, the generator has yielded every event of the adapter unchanged and
    yields exactly one [Error] event after them. The openai and huggingface
    branches hand nothing to the evaluation step. *)
Theorem evaluation_failure_surfaces (W : World) (registry : ModelRegistry)
    (query : string) (contexts : list Search.SearchResult) (provider : string)
    (selected_model : option string) (config : ModelConfig) (e : PyExn) :
  let prompt := build_research_prompt W contexts query in
  (get_config registry "openrouter" = inr config →
   Py.lower provider = "openrouter" →
   ∀ answer model_used finish_reason,
     outcome (generate_openrouter W prompt config selected_model)
       = inr (answer, model_used, finish_reason) →
     evaluate_metrics W answer prompt = inl e →
     outcome (generate_answer W registry query contexts provider selected_model)
       = inl e)
  ∧ (let g := stream_openrouter W prompt config selected_model in
     outcome g = inr () →
     evaluate_metrics W (join (wire <$> yielded g)) prompt = inl e →
     yielded (stream_gen W provider "openrouter" prompt config selected_model)
       = yielded g ++ [Error]
     ∧ outcome (stream_gen W provider "openrouter" prompt config selected_model)
       = inr ())
  ∧ evaluated (calls (stream_gen W provider "openai" prompt config selected_model)) = []
  ∧ evaluated (calls (stream_gen W provider "huggingface" prompt config selected_model)) = []
  ∧ evaluated (calls (generate_openai W prompt config)) = []
  ∧ evaluated (calls (generate_huggingface W prompt config)) = [].
Proof.
  intros prompt. split; [| split; [| split; [| split; [| split]]]].
  - intros Hconfig Hlower answer model_used finish_reason Hgen Heval.
    rewrite (generate_answer_openrouter _ _ _ _ _ _ _ Hlower Hconfig). cbv zeta.
    fold prompt. rewrite Hgen. simpl. by rewrite Heval.
  - intros g Hg Heval. rewrite stream_gen_openrouter. cbv zeta.
    fold g. rewrite Hg, Heval. done.
  - rewrite stream_gen_openai, stream_openai_run. cbv zeta.
    destruct (chat_create_stream W _); reflexivity.
  - rewrite stream_gen_huggingface, stream_huggingface_run. cbv zeta.
    destruct (chat_create_stream W _); reflexivity.
  - rewrite generate_openai_run. reflexivity.
  - rewrite generate_huggingface_run. reflexivity.
Qed.

Lemma evaluation_failure_surfaces_witness :
  let W := hello_world (Some "stop") None (inl boom) in
  let config := config_with "openai/gpt-oss-20b:free"
      ["cognitivecomputations/dolphin-mistral-24b-venice-edition:free";
       "nvidia/nemotron-nano-9b-v2:free"] in
  outcome (generate_answer W MODEL_REGISTRY "query" [] "OpenRouter" None) = inl boom
  ∧ yielded (stream_gen W "OpenRouter" "openrouter" "query" config None)
    = yielded (stream_openrouter W "query" config None) ++ [Error]
  ∧ outcome (stream_gen W "OpenRouter" "openrouter" "query" config None) = inr ().
Proof.
  intros W config.
  destruct (evaluation_failure_surfaces W MODEL_REGISTRY "query" [] "OpenRouter"
              None config boom) as (Hbatch & Hstream & _).
  split.
  - apply (Hbatch eq_refl eq_refl "Hello" (Some "served/model") (Some "stop"));
      reflexivity.
  - apply Hstream; reflexivity.
Defined.

(** C7, counterexample. The openrouter generation succeeds and the evaluation
    raises: the batch call raises instead of returning the answer, and the
    stream carries one more event, [Error], after the answer. *)
Lemma evaluation_failure_not_isolated :
  let W := hello_world (Some "stop") None (inl boom) in
  outcome (generate_openrouter W "query"
             (config_with "openai/gpt-oss-20b:free"
                ["cognitivecomputations/dolphin-mistral-24b-venice-edition:free";
                 "nvidia/nemotron-nano-9b-v2:free"]) None)
    = inr ("Hello", Some "served/model", Some "stop")
  ∧ outcome (generate_answer W MODEL_REGISTRY "query" [] "openrouter" None) = inl boom
  ∧ ∃ g, get_streaming_function W MODEL_REGISTRY "openrouter" "query" [] None = inr g
         ∧ yielded g = [ModelSelected "served/model"; Text "Hel"; Text "lo"; Error].
Proof.
  intros W. split; [vm_compute; reflexivity |]. split; [vm_compute; reflexivity |].
  eexists. split; vm_compute; reflexivity.
Qed.

End GenProps.

(** ** Further properties of the deduplicating queries *)

Module SearchMore.
Import Search SearchVocabulary SearchProps Samples MoreSamples.

Lemma ids_kept_length points (seen : gset PointId) :
  length (ids_kept points seen) = size (distinct_ids points ∖ seen).
Proof.
  unfold distinct_ids. revert seen.
  induction points as [|p rest IH]; intros seen.
  - symmetry. apply size_empty_iff. intros x. simpl.
    rewrite elem_of_difference, elem_of_empty. tauto.
  - cbn [ids_kept]. rewrite fmap_cons, list_to_set_cons.
    set (S := list_to_set (id <$> rest) : gset PointId) in *.
    destruct (decide (id p ∈ seen)) as [Hin | Hnin].
    + rewrite IH. f_equal. apply set_eq. intros x.
      rewrite !elem_of_difference, elem_of_union, elem_of_singleton.
      split; [tauto |]. intros [[-> | ?] ?]; tauto.
    + simpl. rewrite IH.
      assert (Heq : ({[id p]} ∪ S) ∖ seen = {[id p]} ∪ S ∖ ({[id p]} ∪ seen)).
      { apply set_eq. intros x.
        rewrite !elem_of_union, !elem_of_difference, !elem_of_union,
          !elem_of_singleton.
        destruct (decide (x = id p)) as [-> | ?]; tauto. }
      rewrite Heq.
      rewrite (size_union ({[id p]} : gset PointId) (S ∖ ({[id p]} ∪ seen))).
      { by rewrite (size_singleton (id p : PointId)). }
      intros x. rewrite elem_of_singleton, elem_of_difference, elem_of_union,
        elem_of_singleton. tauto.
Qed.

(** X1. For a limit [L >= 0], [query_with_filters] returns exactly
    [min L d] results, where [d] is the number of distinct point ids among the
    candidates. *)
Theorem query_with_filters_count (index : Index) (q : Query) (L : Z) :
  0 ≤ L →
  length (query_with_filters index q L)
  = Nat.min (Z.to_nat L) (size (distinct_ids (index q (Z.max 1 L * 100)))).
Proof.
  intros HL. unfold query_with_filters. cbv zeta.
  rewrite ids_loop_kept, app_nil_l, slice_to_pos by done.
  rewrite length_take, length_fmap, ids_kept_length.
  by rewrite difference_empty_L.
Qed.

Lemma query_with_filters_count_witness :
  length (query_with_filters (λ _ _, sample_points) sample_query 2)
  = Nat.min (Z.to_nat 2) (size (distinct_ids sample_points)).
Proof.
  apply (query_with_filters_count (λ _ _, sample_points) sample_query 2). lia.
Defined.

Lemma ids_kept_all points (seen : gset PointId) :
  NoDup (id <$> points) →
  (∀ p, p ∈ points → id p ∉ seen) →
  ids_kept points seen = points.
Proof.
  revert seen. induction points as [|p rest IH]; intros seen Hnd Hfresh;
    [reflexivity |].
  cbn [ids_kept]. rewrite fmap_cons in Hnd. apply NoDup_cons in Hnd as [Hp Hnd].
  destruct (decide (id p ∈ seen)) as [Hin | _].
  - exfalso. apply (Hfresh p); [apply list_elem_of_here | exact Hin].
  - f_equal. apply IH; [exact Hnd |].
    intros p' Hp' [Heq%elem_of_singleton | Hseen]%elem_of_union.
    + apply Hp. rewrite <- Heq. apply list_elem_of_fmap. eauto.
    + apply (Hfresh p'); [by apply list_elem_of_further | exact Hseen].
Qed.

(** X2. When the candidates already have pairwise distinct ids, nothing is
    dropped: for [L >= 0] the result is the image of the first [L] candidates,
    in order. *)
Theorem query_with_filters_no_duplicates (index : Index) (q : Query) (L : Z) :
  0 ≤ L →
  NoDup (id <$> index q (Z.max 1 L * 100)) →
  query_with_filters index q L
  = result_of_point <$> take (Z.to_nat L) (index q (Z.max 1 L * 100)).
Proof.
  intros HL Hnd. unfold query_with_filters. cbv zeta.
  rewrite ids_loop_kept, app_nil_l, slice_to_pos by done.
  rewrite ids_kept_all; [by rewrite fmap_take | exact Hnd |].
  intros p _. apply not_elem_of_empty.
Qed.

Lemma query_with_filters_no_duplicates_witness :
  query_with_filters (λ _ _, distinct_points) sample_query 2
  = result_of_point <$> take (Z.to_nat 2) distinct_points.
Proof.
  apply (query_with_filters_no_duplicates (λ _ _, distinct_points) sample_query 2).
  - lia.
  - vm_compute. repeat constructor; intros Hin;
      repeat (apply elem_of_cons in Hin as [Hin | Hin]; [discriminate |]);
      by apply elem_of_nil in Hin.
Defined.



Example negative_limit_sample :
  title <$> query_with_filters (λ _ _, sample_points) sample_query (-1)
  = ["RAG"; "RAG"; ""].
Proof. vm_compute. reflexivity. Qed.

(** *** The title variant *)

Lemma usable_title_spec p t :
  usable_title p = Some t ↔
  p_title (payload_or_empty p) = Some t ∧ Py.truthy t = true.
Proof.
  unfold usable_title. destruct (p_title (payload_or_empty p)) as [t'|].
  - destruct (Py.truthy t') eqn:Ht; split.
    + by intros [= <-].
    + by intros [[= <-] _].
    + discriminate.
    + intros [[= <-] Ht']. congruence.
  - split; [discriminate | by intros [? _]].
Qed.

(** The loop in terms of [usable_title]. *)
Lemma titles_kept_cons limit p rest (seen : gset string) n :
  titles_kept limit (p :: rest) seen n =
  match usable_title p with
  | Some t =>
      if bool_decide (t ∈ seen) then titles_kept limit rest seen n
      else if Z.of_nat (S n) >=? limit then [p]
      else p :: titles_kept limit rest ({[t]} ∪ seen) (S n)
  | None => titles_kept limit rest seen n
  end.
Proof.
  cbn [titles_kept]. unfold usable_title.
  destruct (p_title (payload_or_empty p)) as [t|]; [| reflexivity].
  destruct (Py.truthy t); reflexivity.
Qed.

Lemma distinct_titles_cons p rest :
  distinct_titles (p :: rest) =
  match usable_title p with
  | Some t => {[t]} ∪ distinct_titles rest
  | None => distinct_titles rest
  end.
Proof.
  unfold distinct_titles. cbn [omap list_omap].
  destruct (usable_title p); reflexivity.
Qed.

Lemma titles_kept_count limit points (seen : gset string) n :
  Z.of_nat n < limit →
  (n + length (titles_kept limit points seen n))%nat
  = Nat.min (Z.to_nat limit) (n + size (distinct_titles points ∖ seen)).
Proof.
  revert seen n. induction points as [|p rest IH]; intros seen n Hn.
  - assert (H0 : size (distinct_titles [] ∖ seen) = 0%nat).
    { apply size_empty_iff. intros x. unfold distinct_titles. simpl.
      rewrite elem_of_difference, elem_of_empty. tauto. }
    rewrite H0. simpl. lia.
  - rewrite titles_kept_cons, distinct_titles_cons.
    set (T := distinct_titles rest) in *.
    destruct (usable_title p) as [t|]; [| by apply IH].
    destruct (bool_decide_reflect (t ∈ seen)) as [Hin | Hnin].
    + rewrite IH by done. do 2 f_equal. f_equal. apply set_eq. intros x.
      rewrite !elem_of_difference, elem_of_union, elem_of_singleton.
      split; [tauto |]. intros [[-> | ?] ?]; tauto.
    + assert (Heq : ({[t]} ∪ T) ∖ seen = {[t]} ∪ T ∖ ({[t]} ∪ seen)).
      { apply set_eq. intros x.
        rewrite !elem_of_union, !elem_of_difference, !elem_of_union,
          !elem_of_singleton.
        destruct (decide (x = t)) as [-> | ?]; tauto. }
      rewrite Heq.
      rewrite (size_union ({[t]} : gset string) (T ∖ ({[t]} ∪ seen))).
      2:{ intros x. rewrite elem_of_singleton, elem_of_difference, elem_of_union,
            elem_of_singleton. tauto. }
      rewrite (size_singleton (t : string)).
      destruct (Z.geb_spec (Z.of_nat (S n)) limit) as [Hge | Hlt].
      * simpl. lia.
      * cbn [length]. specialize (IH ({[t]} ∪ seen) (S n) Hlt). lia.
Qed.

(** X4. For a limit [L >= 1], [query_unique_titles] returns exactly
    [min L k] results, where [k] is the number of distinct non-empty titles
    among the candidates: it stops short of [L] only when the candidates are
    exhausted. *)
Theorem query_unique_titles_count (index : Index) (q : Query) (L : Z) :
  1 ≤ L →
  length (query_unique_titles index q L)
  = Nat.min (Z.to_nat L) (size (distinct_titles (index q (Z.max 1 L * 280)))).
Proof.
  intros HL. unfold query_unique_titles. cbv zeta.
  rewrite titles_loop_kept, app_nil_l, length_fmap. simpl length.
  pose proof (titles_kept_count L (index q (Z.max 1 L * 280)) ∅ 0) as H.
  rewrite difference_empty_L in H. simpl in H. apply H. lia.
Qed.

Lemma query_unique_titles_count_witness :
  length (query_unique_titles (λ _ _, sample_points) sample_query 5)
  = Nat.min (Z.to_nat 5) (size (distinct_titles sample_points)).
Proof.
  apply (query_unique_titles_count (λ _ _, sample_points) sample_query 5). lia.
Defined.

Example query_unique_titles_exhausted :
  length (query_unique_titles (λ _ _, sample_points) sample_query 5) = 2%nat.
Proof. vm_compute. reflexivity. Qed.

(** X5. Whatever the limit, every result of [query_unique_titles] carries a
    non-empty title. *)
Theorem query_unique_titles_titled (index : Index) (q : Query) (limit : Z) :
  Forall (λ r, Py.truthy (title r) = true) (query_unique_titles index q limit).
Proof.
  unfold query_unique_titles. cbv zeta.
  rewrite titles_loop_kept, app_nil_l. apply Forall_fmap, Forall_forall.
  intros p Hin. apply titles_kept_fresh in Hin as (t & Ht & Htruthy & _).
  simpl. unfold result_of_point. rewrite Ht. exact Htruthy.
Qed.

Lemma titles_loop_small_limit limit points (seen : gset string) :
  limit ≤ 1 → titles_loop limit points seen [] = titles_loop 1 points seen [].
Proof.
  intros Hlimit. induction points as [|p rest IH]; [reflexivity |].
  cbn [titles_loop].
  destruct (p_title (payload_or_empty p)) as [t|]; [| exact IH].
  destruct (negb (Py.truthy t) || bool_decide (t ∈ seen))%bool; [exact IH |].
  cbn [app length].
  destruct (Z.geb_spec (Z.of_nat 1) limit); [| lia].
  destruct (Z.geb_spec (Z.of_nat 1) 1); [reflexivity | lia].
Qed.

(** X6. In the title variant every limit up to 1, zero and the negative
    ones included, behaves as the limit 1. *)
Theorem query_unique_titles_small_limit (index : Index) (q : Query) (limit : Z) :
  limit ≤ 1 →
  query_unique_titles index q limit = query_unique_titles index q 1.
Proof.
  intros Hlimit. unfold query_unique_titles. cbv zeta.
  replace (Z.max 1 limit) with 1 by lia.
  by apply titles_loop_small_limit.
Qed.

Lemma query_unique_titles_small_limit_witness :
  query_unique_titles (λ _ _, sample_points) sample_query (-3)
  = query_unique_titles (λ _ _, sample_points) sample_query 1.
Proof.
  apply (query_unique_titles_small_limit (λ _ _, sample_points) sample_query (-3)).
  lia.
Defined.

Lemma titles_kept_complete limit points (seen : gset string) n p t :
  Z.of_nat (n + length (titles_kept limit points seen n)) < limit →
  p ∈ points → usable_title p = Some t →
  t ∈ seen ∨ t ∈ (title ∘ result_of_point <$> titles_kept limit points seen n).
Proof.
  revert seen n. induction points as [|p0 rest IH]; intros seen n Hlen Hin Ht.
  - by apply elem_of_nil in Hin.
  - rewrite titles_kept_cons in Hlen |- *.
    assert (Htitle : ∀ p' t', usable_title p' = Some t' →
              (title ∘ result_of_point) p' = t').
    { intros p' t' [Hp' _]%usable_title_spec. simpl. unfold result_of_point.
      by rewrite Hp'. }
    destruct (usable_title p0) as [t0|] eqn:Ht0.
    + destruct (bool_decide_reflect (t0 ∈ seen)) as [Hseen | Hnew].
      * apply elem_of_cons in Hin as [-> | Hin]; [| by apply IH].
        left. congruence.
      * destruct (Z.geb_spec (Z.of_nat (S n)) limit) as [Hge | Hlt].
        { simpl in Hlen. lia. }
        cbn [length] in Hlen. rewrite fmap_cons, (Htitle p0 t0 Ht0).
        apply elem_of_cons in Hin as [-> | Hin].
        { right. replace t with t0 by congruence. apply list_elem_of_here. }
        destruct (IH ({[t0]} ∪ seen) (S n)) as [Hs | Hk]; [lia | done | done | |].
        -- apply elem_of_union in Hs as [->%elem_of_singleton | Hs];
             [right; apply list_elem_of_here | by left].
        -- right. by apply list_elem_of_further.
    + apply elem_of_cons in Hin as [-> | Hin]; [congruence | by apply IH].
Qed.

(** X7. When [query_unique_titles] returns fewer results than the limit,
    no title was left out: every non-empty title of a candidate is the title
    of a result. *)
Theorem query_unique_titles_complete (index : Index) (q : Query) (limit : Z) :
  Z.of_nat (length (query_unique_titles index q limit)) < limit →
  ∀ p t, p ∈ index q (Z.max 1 limit * 280) →
         p_title (payload_or_empty p) = Some t → Py.truthy t = true →
         t ∈ (title <$> query_unique_titles index q limit).
Proof.
  unfold query_unique_titles. cbv zeta.
  rewrite titles_loop_kept, app_nil_l, length_fmap. simpl length.
  intros Hlen p t Hin Ht Htruthy.
  rewrite <- list_fmap_compose.
  destruct (titles_kept_complete limit _ ∅ 0 p t Hlen Hin) as [Hs | Hk].
  - by apply usable_title_spec.
  - by apply not_elem_of_empty in Hs.
  - exact Hk.
Qed.

Lemma query_unique_titles_complete_witness :
  "Agents" ∈ (title <$> query_unique_titles (λ _ _, sample_points) sample_query 5).
Proof.
  apply (query_unique_titles_complete (λ _ _, sample_points) sample_query 5
           ltac:(vm_compute; reflexivity)
           (mkPoint (IdUuid "a")
              (Some (mkPayload (Some "Agents") None None None None None)) 1%Q)
           "Agents").
  - unfold sample_points. do 4 apply list_elem_of_further. apply list_elem_of_here.
  - reflexivity.
  - reflexivity.
Defined.

End SearchMore.

(** ** The filter of the two queries *)

Module FilterProps.
Import Search Filters.

Lemma append_if_length x c conditions :
  length (append_if x c conditions)
  = (length conditions + if Py.truthy_opt x then 1 else 0)%nat.
Proof.
  unfold append_if. destruct x as [v|]; simpl; [| lia].
  destruct (Py.truthy v); [| lia]. rewrite length_app. simpl. lia.
Qed.

(** X8. A filter input that is [None] or the empty string adds no
    condition: the number of conditions is the number of non-empty inputs, and
    no filter at all is sent exactly when the three inputs are all empty. *)
Theorem query_filter_by_truthiness (q : Query) :
  length (build_conditions q)
  = ((if Py.truthy_opt (q_feed_author q) then 1 else 0)
     + (if Py.truthy_opt (q_feed_name q) then 1 else 0)
     + (if Py.truthy_opt (q_title_keywords q) then 1 else 0))%nat
  ∧ (query_filter q = None ↔
     Py.truthy_opt (q_feed_author q) = false
     ∧ Py.truthy_opt (q_feed_name q) = false
     ∧ Py.truthy_opt (q_title_keywords q) = false).
Proof.
  assert (Hlen : length (build_conditions q)
    = ((if Py.truthy_opt (q_feed_author q) then 1 else 0)
       + (if Py.truthy_opt (q_feed_name q) then 1 else 0)
       + (if Py.truthy_opt (q_title_keywords q) then 1 else 0))%nat).
  { unfold build_conditions. cbv zeta. rewrite !append_if_length. simpl. lia. }
  split; [exact Hlen |].
  unfold query_filter.
  destruct (build_conditions q) as [|c cs] eqn:Hc.
  - split; [intros _ | reflexivity].
    destruct (Py.truthy_opt (q_feed_author q)), (Py.truthy_opt (q_feed_name q)),
      (Py.truthy_opt (q_title_keywords q)); simpl in Hlen; try lia; done.
  - split; [discriminate |]. intros (H1 & H2 & H3).
    rewrite H1, H2, H3 in Hlen. simpl in Hlen. lia.
Qed.

Lemma query_filter_by_truthiness_witness :
  let q := mkQuery "rag" (Some "") None (Some "RAG") in
  length (build_conditions q)
  = ((if Py.truthy_opt (q_feed_author q) then 1 else 0)
     + (if Py.truthy_opt (q_feed_name q) then 1 else 0)
     + (if Py.truthy_opt (q_title_keywords q) then 1 else 0))%nat
  ∧ (query_filter q = None ↔
     Py.truthy_opt (q_feed_author q) = false
     ∧ Py.truthy_opt (q_feed_name q) = false
     ∧ Py.truthy_opt (q_title_keywords q) = false).
Proof.
  intros q. apply (query_filter_by_truthiness q).
Defined.

(** *** Stripping and lowercasing *)

Lemma lower_ascii_space c : PyText.is_space (Py.lower_ascii c) = PyText.is_space c.
Proof. destruct c as [[] [] [] [] [] [] [] []]; reflexivity. Qed.

Lemma lstrip_lower s : PyText.lstrip (Py.lower s) = Py.lower (PyText.lstrip s).
Proof.
  induction s as [|c s IH]; [reflexivity |].
  cbn [Py.lower PyText.lstrip]. rewrite lower_ascii_space.
  destruct (PyText.is_space c); [exact IH | reflexivity].
Qed.

Lemma rstrip_lower s : PyText.rstrip (Py.lower s) = Py.lower (PyText.rstrip s).
Proof.
  induction s as [|c s IH]; [reflexivity |].
  cbn [Py.lower PyText.rstrip]. rewrite IH, lower_ascii_space.
  destruct (PyText.rstrip s); simpl; [| reflexivity].
  destruct (PyText.is_space c); reflexivity.
Qed.

Lemma rstrip_idemp s : PyText.rstrip (PyText.rstrip s) = PyText.rstrip s.
Proof.
  induction s as [|c s IH]; [reflexivity |].
  cbn [PyText.rstrip].
  destruct (PyText.rstrip s) as [|c' r] eqn:Hr.
  - destruct (PyText.is_space c) eqn:Hc; [reflexivity |].
    cbn [PyText.rstrip]. by rewrite Hc.
  - cbn [PyText.rstrip]. cbn [PyText.rstrip] in IH.
    destruct (PyText.rstrip r) as [|c'' r'] eqn:Hr'.
    + destruct (PyText.is_space c'); [discriminate |]. by rewrite IH.
    + by rewrite IH.
Qed.

(** A string with no leading whitespace keeps its head through [rstrip]. *)
Lemma lstrip_rstrip_lstrip s :
  PyText.lstrip (PyText.rstrip (PyText.lstrip s)) = PyText.rstrip (PyText.lstrip s).
Proof.
  induction s as [|c s IH]; [reflexivity |].
  cbn [PyText.lstrip]. destruct (PyText.is_space c) eqn:Hc; [exact IH |].
  cbn [PyText.rstrip]. rewrite Hc.
  destruct (PyText.rstrip s); cbn [PyText.lstrip]; by rewrite Hc.
Qed.

Lemma strip_idemp s : PyText.strip (PyText.strip s) = PyText.strip s.
Proof.
  unfold PyText.strip. by rewrite lstrip_rstrip_lstrip, rstrip_idemp.
Qed.

Lemma strip_lower s : PyText.strip (Py.lower s) = Py.lower (PyText.strip s).
Proof. unfold PyText.strip. by rewrite lstrip_lower, rstrip_lower. Qed.

Lemma append_if_elem x c conditions cond :
  cond ∈ append_if x c conditions →
  cond ∈ conditions ∨ ∃ v, x = Some v ∧ Py.truthy v = true ∧ cond = c v.
Proof.
  unfold append_if. destruct x as [v|]; [| by left].
  destruct (Py.truthy v) eqn:Hv; [| by left].
  intros [Hin | ->%list_elem_of_singleton]%elem_of_app; [by left |].
  right. eauto.
Qed.

(** X9. The text of the title condition is normalised: it is already
    stripped and lowercased, so sending it through [strip().lower()] again
    changes nothing; the two other conditions carry their input unchanged. *)
Theorem conditions_normalised (q : Query) (cond : FieldCondition) :
  cond ∈ build_conditions q →
  (∃ v, q_feed_author q = Some v ∧ cond = mkCondition "feed_author" (MatchValue v))
  ∨ (∃ v, q_feed_name q = Some v ∧ cond = mkCondition "feed_name" (MatchValue v))
  ∨ (∃ text, cond = mkCondition "title" (MatchText text)
             ∧ Py.lower (PyText.strip text) = text).
Proof.
  unfold build_conditions. cbv zeta. intros Hin.
  apply append_if_elem in Hin as [Hin | (v & Hv & _ & ->)].
  - apply append_if_elem in Hin as [Hin | (v & Hv & _ & ->)].
    + apply append_if_elem in Hin as [Hin | (v & Hv & _ & ->)].
      * by apply elem_of_nil in Hin.
      * left. eauto.
    + right. left. eauto.
  - right. right. eexists. split; [reflexivity |].
    by rewrite strip_lower, strip_idemp, GenProps.lower_idemp.
Qed.

Lemma conditions_normalised_witness :
  let q := mkQuery "rag" None (Some "Feed") (Some "  RAG Tips ") in
  let cond := mkCondition "title" (MatchText "rag tips") in
  (∃ v, q_feed_author q = Some v ∧ cond = mkCondition "feed_author" (MatchValue v))
  ∨ (∃ v, q_feed_name q = Some v ∧ cond = mkCondition "feed_name" (MatchValue v))
  ∨ (∃ text, cond = mkCondition "title" (MatchText text)
             ∧ Py.lower (PyText.strip text) = text).
Proof.
  intros q cond. apply (conditions_normalised q cond).
  vm_compute. apply list_elem_of_further, list_elem_of_here.
Defined.

(** X10. Title keywords made of whitespace only are not an absent filter:
    they are truthy, so a title condition with the empty text is sent. *)
Theorem blank_title_keywords_filter (q : Query) (v : string) :
  q_title_keywords q = Some v → Py.truthy v = true → PyText.strip v = "" →
  mkCondition "title" (MatchText "") ∈ build_conditions q
  ∧ query_filter q ≠ None.
Proof.
  intros Hq Hv Hstrip.
  assert (Hin : mkCondition "title" (MatchText "") ∈ build_conditions q).
  { unfold build_conditions. cbv zeta. rewrite Hq. unfold append_if at 1.
    rewrite Hv, Hstrip. apply elem_of_app. right. apply list_elem_of_here. }
  split; [exact Hin |]. unfold query_filter.
  destruct (build_conditions q); [by apply elem_of_nil in Hin | discriminate].
Qed.

Lemma blank_title_keywords_filter_witness :
  let q := mkQuery "rag" None None (Some "   ") in
  mkCondition "title" (MatchText "") ∈ build_conditions q
  ∧ query_filter q ≠ None.
Proof.
  intros q. apply (blank_title_keywords_filter q "   "); reflexivity.
Defined.

End FilterProps.

(** ** The registry *)

Module RegistryProps.
Import Registry Effects Providers Generation Protocol GenProps.

(** X11. Registering and resolving round-trips: after a configuration is
    stored under [k], every spelling of a name that lowercases to [k] resolves
    to it, and every other name resolves as before. *)
Theorem register_then_resolve (m : gmap string ModelConfig) (k : string)
    (config : ModelConfig) (provider : string) :
  (Py.lower provider = k →
     get_config (mkRegistry (<[k := config]> m)) provider = inr config)
  ∧ (Py.lower provider ≠ k →
     get_config (mkRegistry (<[k := config]> m)) provider
     = get_config (mkRegistry m) provider).
Proof.
  split; intros Hp; rewrite !get_config_lookup; simpl.
  - by rewrite Hp, lookup_insert_eq.
  - by rewrite lookup_insert_ne.
Qed.

Lemma register_then_resolve_witness :
  get_config (mkRegistry (<["openai" := config_with "gpt-4o-mini" []]>
                            (models MODEL_REGISTRY))) "OpenAI"
  = inr (config_with "gpt-4o-mini" []).
Proof.
  apply (register_then_resolve (models MODEL_REGISTRY) "openai"
           (config_with "gpt-4o-mini" []) "OpenAI"). reflexivity.
Defined.

(** X12. An entry stored under a key that is not all lowercase is never
    found: adding it changes the result of no lookup. *)
Theorem mixed_case_key_unreachable (m : gmap string ModelConfig) (k : string)
    (config : ModelConfig) (provider : string) :
  Py.lower k ≠ k →
  get_config (mkRegistry (<[k := config]> m)) provider
  = get_config (mkRegistry m) provider.
Proof.
  intros Hk. rewrite !get_config_lookup. simpl.
  rewrite lookup_insert_ne; [reflexivity |].
  intros ->. apply Hk. apply lower_idemp.
Qed.

Lemma mixed_case_key_unreachable_witness :
  get_config (mkRegistry (<["OpenAI" := config_with "gpt-4o-mini" []]>
                            (models MODEL_REGISTRY))) "OpenAI"
  = get_config MODEL_REGISTRY "OpenAI".
Proof.
  apply (mixed_case_key_unreachable (models MODEL_REGISTRY) "OpenAI"
           (config_with "gpt-4o-mini" []) "OpenAI").
  vm_compute. discriminate.
Defined.

End RegistryProps.

(** ** The logging middleware *)

Module MiddlewareProps.
Import Middleware.

Lemma safe_headers_fold items (m : gmap string string) (k : string) :
  foldl (λ m kv, if sensitive kv.1 then m else <[kv.1 := kv.2]> m) m items !! k
  = if sensitive k then m !! k
    else match last (filter (λ kv, kv.1 = k) items) with
         | Some kv => Some kv.2
         | None => m !! k
         end.
Proof.
  revert m. induction items as [|[k' v'] rest IH]; intros m.
  - simpl. by destruct (sensitive k).
  - cbn [foldl]. rewrite IH. cbn [fst snd].
    destruct (sensitive k) eqn:Hk.
    + destruct (sensitive k') eqn:Hk'; [reflexivity |].
      rewrite lookup_insert_ne; [reflexivity | congruence].
    + rewrite filter_cons. cbn [fst].
      destruct (decide (k' = k)) as [-> | Hne].
      * rewrite Hk, last_cons, lookup_insert_eq.
        by destruct (last (filter _ rest)).
      * destruct (last (filter _ rest)); [reflexivity |].
        destruct (sensitive k'); [reflexivity |]. by rewrite lookup_insert_ne.
Qed.

(** X13. The logged headers never hold an Authorization or Cookie header,
    in any spelling of its name, and hold every other header with the value of
    its last occurrence. *)
Theorem safe_headers_spec (items : list (string * string)) (k : string) :
  (Py.lower k = "authorization" ∨ Py.lower k = "cookie" →
     safe_headers items !! k = None)
  ∧ (Py.lower k ≠ "authorization" → Py.lower k ≠ "cookie" →
     safe_headers items !! k = snd <$> last (filter (λ kv, kv.1 = k) items)).
Proof.
  unfold safe_headers. rewrite safe_headers_fold, lookup_empty.
  unfold sensitive. split.
  - intros Hk. rewrite bool_decide_eq_true_2; [reflexivity |].
    rewrite elem_of_union, !elem_of_singleton. tauto.
  - intros H1 H2. rewrite bool_decide_eq_false_2.
    + by destruct (last _).
    + rewrite elem_of_union, !elem_of_singleton. tauto.
Qed.

Lemma safe_headers_spec_witness :
  let items := [("Authorization", "Bearer x"); ("accept", "a"); ("COOKIE", "c");
                ("accept", "b")] in
  safe_headers items !! "COOKIE" = None
  ∧ safe_headers items !! "accept" = Some "b".
Proof.
  intros items.
  split.
  - apply (safe_headers_spec items "COOKIE"). right. reflexivity.
  - apply (safe_headers_spec items "accept"); vm_compute; discriminate.
Defined.

End MiddlewareProps.

(** ** Further properties of the adapters *)

Module AdapterProps.
Import Registry Effects Providers Generation Protocol StreamVocabulary Samples GenProps.

(** X14. The adapters swallow nothing: an exception of [create] leaves the
    batch adapters as it is, and leaves the streaming adapters before
    anything was yielded. *)
Theorem adapters_propagate_create_failure (W : World) (prompt : string)
    (config : ModelConfig) (selected_model : option string) (e : PyExn) :
  ((∀ r, chat_create W r = inl e) →
     outcome (generate_openai W prompt config) = inl e
     ∧ outcome (generate_openrouter W prompt config selected_model) = inl e
     ∧ outcome (generate_huggingface W prompt config) = inl e)
  ∧ ((∀ r, chat_create_stream W r = inl e) →
     stream_openai W prompt config
       = mkRun [] (calls (stream_openai W prompt config)) (inl e)
     ∧ stream_openrouter W prompt config selected_model
       = mkRun [] (calls (stream_openrouter W prompt config selected_model)) (inl e)
     ∧ stream_huggingface W prompt config
       = mkRun [] (calls (stream_huggingface W prompt config)) (inl e)).
Proof.
  split; intros HW.
  - rewrite generate_openai_run, generate_openrouter_run, generate_huggingface_run.
    cbv zeta. simpl. by rewrite !HW.
  - rewrite stream_openai_run, stream_openrouter_run, stream_huggingface_run.
    cbv zeta. by rewrite !HW.
Qed.

Lemma adapters_propagate_create_failure_witness :
  let W := mkWorld (λ _ q, q) (λ _, inl boom) (λ _, inl boom) (λ _ _, inr ()) in
  let config := config_with "deepseek-ai/DeepSeek-R1" [] in
  (outcome (generate_openai W "prompt" config) = inl boom
   ∧ outcome (generate_openrouter W "prompt" config None) = inl boom
   ∧ outcome (generate_huggingface W "prompt" config) = inl boom)
  ∧ (stream_openai W "prompt" config
       = mkRun [] (calls (stream_openai W "prompt" config)) (inl boom)
     ∧ stream_openrouter W "prompt" config None
       = mkRun [] (calls (stream_openrouter W "prompt" config None)) (inl boom)
     ∧ stream_huggingface W "prompt" config
       = mkRun [] (calls (stream_huggingface W "prompt" config)) (inl boom)).
Proof.
  intros W config.
  destruct (adapters_propagate_create_failure W "prompt" config None boom)
    as [Hbatch Hstream].
  split; [apply Hbatch | apply Hstream]; intros r; reflexivity.
Defined.

(** X15. For openrouter and huggingface the streaming request is the batch
    request with [stream=True] and nothing else changed; for openai the two
    also differ in the model, which the batch request fixes to
    "gpt-4o-mini". *)
Theorem stream_request_is_batch_request (W : World) (prompt : string)
    (config : ModelConfig) (selected_model : option string) :
  (∃ r, calls (generate_openrouter W prompt config selected_model) = [ChatCreate r]
        ∧ rq_stream r = false
        ∧ calls (stream_openrouter W prompt config selected_model)
          = [ChatCreate (with_stream r true)])
  ∧ (∃ r, calls (generate_huggingface W prompt config) = [ChatCreate r]
          ∧ rq_stream r = false
          ∧ calls (stream_huggingface W prompt config)
            = [ChatCreate (with_stream r true)])
  ∧ (∃ r, calls (generate_openai W prompt config) = [ChatCreate r]
          ∧ rq_stream r = false ∧ rq_model r = "gpt-4o-mini"
          ∧ calls (stream_openai W prompt config)
            = [ChatCreate
                 (mkRequest (rq_client r) (primary_model config) (rq_messages r)
                    (rq_temperature r) (rq_max_tokens r) (rq_extra_body r) true)]).
Proof.
  rewrite generate_openai_run, generate_openrouter_run, generate_huggingface_run,
    stream_openai_run, stream_openrouter_run, stream_huggingface_run.
  cbv zeta. split; [| split]; eexists; (split; [reflexivity |]);
    repeat (split; [reflexivity |]);
    by destruct (chat_create_stream W _).
Qed.

(** X16. No fragment is lost, reordered or altered: on any stream, failing
    at its end or not, the concatenation of the [Text] events of each adapter
    is the concatenation of the delta contents of the chunks received. *)
Theorem adapters_preserve_text (W : World) (prompt : string)
    (config : ModelConfig) (selected_model : option string) (s : ChunkStream) :
  (∀ r, chat_create_stream W r = inr s) →
  text_of (yielded (stream_openai W prompt config)) = join_deltas (chunks s)
  ∧ text_of (yielded (stream_openrouter W prompt config selected_model))
    = join_deltas (chunks s)
  ∧ text_of (yielded (stream_huggingface W prompt config)) = join_deltas (chunks s).
Proof.
  intros HW.
  rewrite stream_openai_run, stream_openrouter_run, stream_huggingface_run.
  cbv zeta. rewrite !HW. simpl.
  by rewrite text_of_openai_events, text_of_openrouter_events, text_of_text_events.
Qed.

Lemma adapters_preserve_text_witness :
  let W := hello_world (Some "length") (Some boom) (inr ()) in
  let config := config_with "deepseek-ai/DeepSeek-R1" [] in
  let s := mkStream (hello_chunks (Some "length")) (Some boom) in
  text_of (yielded (stream_openai W "prompt" config)) = join_deltas (chunks s)
  ∧ text_of (yielded (stream_openrouter W "prompt" config None))
    = join_deltas (chunks s)
  ∧ text_of (yielded (stream_huggingface W "prompt" config)) = join_deltas (chunks s).
Proof.
  intros W config s. apply (adapters_preserve_text W "prompt" config None s).
  intros r. reflexivity.
Defined.

Lemma text_events_not_model chunks :
  Forall (λ e, is_model e = false) (text_events chunks).
Proof.
  eapply Forall_impl; [apply text_events_all_text |].
  intros [] He; simpl in *; congruence.
Qed.

Lemma truncation_events_not_model s considered :
  Forall (λ e, is_model e = false) (truncation_events s considered).
Proof.
  unfold truncation_events. destruct (failure s); [constructor |].
  destruct (decide _); repeat constructor.
Qed.

(** X17. A [ModelSelected] event can only be the very first event of the
    openrouter stream, and there is at most one; the openai and huggingface
    adapters never yield one. *)
Theorem model_event_only_first (W : World) (prompt : string)
    (config : ModelConfig) (selected_model : option string) :
  Forall (λ e, is_model e = false) (yielded (stream_openai W prompt config))
  ∧ Forall (λ e, is_model e = false) (yielded (stream_huggingface W prompt config))
  ∧ ∃ rest, Forall (λ e, is_model e = false) rest
            ∧ (yielded (stream_openrouter W prompt config selected_model) = rest
               ∨ ∃ m, Py.truthy m = true
                      ∧ yielded (stream_openrouter W prompt config selected_model)
                        = ModelSelected m :: rest).
Proof.
  rewrite stream_openai_run, stream_openrouter_run, stream_huggingface_run.
  cbv zeta. split; [| split].
  - destruct (chat_create_stream W _) as [e | s]; simpl; [constructor |].
    apply Forall_app. split;
      [apply text_events_not_model | apply truncation_events_not_model].
  - destruct (chat_create_stream W _) as [e | s]; simpl; [constructor |].
    apply text_events_not_model.
  - destruct (chat_create_stream W _) as [e | s]; simpl.
    { exists []. split; [constructor | by left]. }
    exists (text_events (chunks s) ++ truncation_events s (tail (chunks s))).
    split.
    { apply Forall_app. split;
        [apply text_events_not_model | apply truncation_events_not_model]. }
    unfold openrouter_events, model_events.
    destruct (chunks s) as [|c rest]; [by left |].
    destruct (chunk_model c) as [m|]; [| by left].
    destruct (Py.truthy m) eqn:Hm; [| by left].
    right. exists m. by split.
Qed.

(** X18. A [Truncated] event is never followed by anything, never repeated,
    and never yielded by a stream that raises. *)
Theorem truncated_only_last (W : World) (prompt : string)
    (config : ModelConfig) (selected_model : option string) :
  (∃ body, (Truncated ∉ body)
           ∧ (yielded (stream_openai W prompt config) = body
              ∨ (yielded (stream_openai W prompt config) = body ++ [Truncated]
                 ∧ outcome (stream_openai W prompt config) = inr ())))
  ∧ (∃ body, (Truncated ∉ body)
             ∧ (yielded (stream_openrouter W prompt config selected_model) = body
                ∨ (yielded (stream_openrouter W prompt config selected_model)
                     = body ++ [Truncated]
                   ∧ outcome (stream_openrouter W prompt config selected_model)
                     = inr ()))).
Proof.
  rewrite stream_openai_run, stream_openrouter_run. cbv zeta. split.
  - destruct (chat_create_stream W _) as [e | s]; simpl.
    { exists []. split; [apply not_elem_of_nil | by left]. }
    exists (text_events (chunks s)). split; [apply no_truncated_in_text |].
    unfold openai_events, truncation_events, stream_end.
    destruct (failure s); [left; apply app_nil_r |].
    destruct (decide _); [by right | left; apply app_nil_r].
  - destruct (chat_create_stream W _) as [e | s]; simpl.
    { exists []. split; [apply not_elem_of_nil | by left]. }
    exists (model_events (chunks s) ++ text_events (chunks s)).
    split; [apply no_truncated_before_marker |].
    unfold openrouter_events, truncation_events, stream_end.
    destruct (failure s); [left; by rewrite app_nil_r |].
    destruct (decide _); [right; by rewrite app_assoc | left; by rewrite app_nil_r].
Qed.

(** X19. The openrouter adapter decides on truncation from the chunks after
    the first one only: it yields [Truncated] exactly when the stream ends
    normally and the last finish-reason reported after the first chunk is
    "length", whatever the first chunk reports. *)
Theorem openrouter_truncation_after_first (W : World) (prompt : string)
    (config : ModelConfig) (selected_model : option string)
    (first_chunk : Chunk) (rest : list Chunk) (fl : option PyExn) :
  (∀ r, chat_create_stream W r = inr (mkStream (first_chunk :: rest) fl)) →
  Truncated ∈ yielded (stream_openrouter W prompt config selected_model)
  ↔ fl = None ∧ terminal_finish_reason rest = Some "length".
Proof.
  intros HW. rewrite stream_openrouter_run. cbv zeta. rewrite HW. simpl.
  unfold openrouter_events, truncation_events. simpl.
  rewrite app_assoc, elem_of_app.
  pose proof (no_truncated_before_marker (first_chunk :: rest)) as Hbody.
  destruct fl as [e|].
  - split; [| by intros [? _]].
    intros [Hin | Hin]; [done | by apply elem_of_nil in Hin].
  - destruct (decide (terminal_finish_reason rest = Some "length")) as [Hl | Hl].
    + split; [done |]. intros _. right. apply list_elem_of_here.
    + split; [| by intros [_ ?]].
      intros [Hin | Hin]; [done | by apply elem_of_nil in Hin].
Qed.

Lemma openrouter_truncation_after_first_witness :
  let W := mkWorld (λ _ q, q) (λ _, inl boom)
             (λ _, inr (mkStream [mkChunk None (Some "Hello") (Some "length")] None))
             (λ _ _, inr ()) in
  Truncated ∈ yielded (stream_openrouter W "prompt"
                         (config_with "openai/gpt-oss-20b:free" []) None)
  ↔ None = (None : option PyExn) ∧ terminal_finish_reason [] = Some "length".
Proof.
  intros W.
  apply (openrouter_truncation_after_first W "prompt"
           (config_with "openai/gpt-oss-20b:free" []) None
           (mkChunk None (Some "Hello") (Some "length")) [] None).
  intros r. reflexivity.
Defined.

End AdapterProps.

(** ** Further properties of the orchestrator *)

Module OrchestratorProps.
Import Registry Effects Providers Generation Protocol StreamVocabulary Samples GenProps.

Lemma no_error_in_openrouter_events s : Error ∉ openrouter_events s.
Proof.
  unfold openrouter_events. rewrite !elem_of_app. intros [Hin | [Hin | Hin]].
  - apply model_events_shape in Hin as (m & Hm & _). discriminate.
  - apply text_events_no_marker in Hin. discriminate.
  - unfold truncation_events in Hin. destruct (failure s);
      [by apply elem_of_nil in Hin |].
    destruct (decide _); [| by apply elem_of_nil in Hin].
    apply list_elem_of_singleton in Hin. discriminate.
Qed.

Lemma no_error_in_stream_openrouter W prompt config selected_model :
  Error ∉ yielded (stream_openrouter W prompt config selected_model).
Proof.
  rewrite stream_openrouter_run. cbv zeta.
  destruct (chat_create_stream W _); simpl;
    [apply not_elem_of_nil | apply no_error_in_openrouter_events].
Qed.

Lemma stream_gen_openrouter_outcome W provider prompt config selected_model :
  outcome (stream_gen W provider "openrouter" prompt config selected_model) = inr ().
Proof.
  rewrite stream_gen_openrouter. cbv zeta.
  destruct (outcome (stream_openrouter W prompt config selected_model));
    [reflexivity |].
  by destruct (evaluate_metrics W _ prompt).
Qed.

(** X20. The generator of the openrouter branch never raises, whatever the
    backend and the evaluation do: it always ends normally, and an [Error]
    event, if there is one, is its last event and the only one. *)
Theorem openrouter_generator_never_raises (W : World) (provider prompt : string)
    (config : ModelConfig) (selected_model : option string) :
  outcome (stream_gen W provider "openrouter" prompt config selected_model) = inr ()
  ∧ ∃ body, (Error ∉ body)
            ∧ (yielded (stream_gen W provider "openrouter" prompt config
                          selected_model) = body
               ∨ yielded (stream_gen W provider "openrouter" prompt config
                            selected_model) = body ++ [Error]).
Proof.
  rewrite stream_gen_openrouter. cbv zeta.
  pose proof (no_error_in_stream_openrouter W prompt config selected_model) as Hno.
  destruct (outcome (stream_openrouter W prompt config selected_model)).
  - split; [reflexivity |]. eexists. split; [exact Hno | by right].
  - destruct (evaluate_metrics W _ prompt); simpl;
      (split; [reflexivity |]); eexists; (split; [exact Hno |]);
      [by right | by left].
Qed.

Lemma evaluated_stream_openrouter W prompt config selected_model :
  evaluated (calls (stream_openrouter W prompt config selected_model)) = [].
Proof.
  rewrite stream_openrouter_run. cbv zeta.
  by destruct (chat_create_stream W _).
Qed.

(** X21. What the streaming path hands to the evaluation: when the adapter's
    stream ends normally, exactly one evaluation, of the concatenation of
    every string yielded, the model marker and the truncation marker included;
    when the stream raises, none. *)
Theorem streaming_evaluation_input (W : World) (provider prompt : string)
    (config : ModelConfig) (selected_model : option string) :
  evaluated (calls (stream_gen W provider "openrouter" prompt config selected_model))
  = match outcome (stream_openrouter W prompt config selected_model) with
    | inr _ =>
        [(join (wire <$> yielded (stream_openrouter W prompt config selected_model)),
          prompt)]
    | inl _ => []
    end.
Proof.
  rewrite stream_gen_openrouter. cbv zeta.
  pose proof (evaluated_stream_openrouter W prompt config selected_model) as Hnone.
  destruct (outcome (stream_openrouter W prompt config selected_model));
    [exact Hnone |].
  destruct (evaluate_metrics W _ prompt); simpl;
    by rewrite evaluated_app, Hnone.
Qed.

Example streaming_evaluation_sees_markers :
  evaluated (calls (stream_gen (hello_world (Some "length") None (inr ()))
                      "openrouter" "openrouter" "prompt"
                      (config_with "openai/gpt-oss-20b:free" []) None))
  = [("__model_used__:served/modelHello__truncated__", "prompt")].
Proof. vm_compute. reflexivity. Qed.

(** X22. What the batch path hands to the evaluation: through the openrouter
    branch, exactly the answer and the prompt after a generation that
    returned, and nothing after one that raised. *)
Theorem batch_evaluation_input (W : World) (registry : ModelRegistry)
    (query : string) (contexts : list Search.SearchResult) (provider : string)
    (selected_model : option string) (config : ModelConfig) :
  get_config registry "openrouter" = inr config →
  Py.lower provider = "openrouter" →
  let prompt := build_research_prompt W contexts query in
  evaluated (calls (generate_answer W registry query contexts provider selected_model))
  = match outcome (generate_openrouter W prompt config selected_model) with
    | inr (answer, _, _) => [(answer, prompt)]
    | inl _ => []
    end.
Proof.
  intros Hconfig Hlower prompt.
  rewrite (generate_answer_openrouter _ _ _ _ _ _ _ Hlower Hconfig). cbv zeta.
  fold prompt. rewrite generate_openrouter_run. cbv zeta. simpl.
  by destruct (chat_create W _).
Qed.

Lemma batch_evaluation_input_witness :
  let W := hello_world (Some "stop") None (inr ()) in
  evaluated (calls (generate_answer W MODEL_REGISTRY "query" [] "OpenRouter" None))
  = match outcome (generate_openrouter W "query"
                     (config_with "openai/gpt-oss-20b:free"
                        ["cognitivecomputations/dolphin-mistral-24b-venice-edition:free";
                         "nvidia/nemotron-nano-9b-v2:free"]) None) with
    | inr (answer, _, _) => [(answer, "query")]
    | inl _ => []
    end.
Proof.
  intros W.
  apply (batch_evaluation_input W MODEL_REGISTRY "query" [] "OpenRouter" None);
    reflexivity.
Defined.

(** [generate_answer] returns only through one of its three branches. *)
Lemma generate_answer_returns W registry query contexts provider selected_model a :
  outcome (generate_answer W registry query contexts provider selected_model) = inr a →
  ∃ config, get_config registry (Py.lower provider) = inr config
            ∧ Py.lower provider ∈ ["openai"; "openrouter"; "huggingface"].
Proof.
  unfold generate_answer. cbv zeta.
  destruct (get_config registry (Py.lower provider)) as [e | config] eqn:Hconfig;
    [discriminate |].
  rewrite of_result_bind. intros Ha. exists config. split; [reflexivity |].
  rewrite !elem_of_cons.
  destruct (decide (Py.lower provider = "openai")); [tauto |].
  destruct (decide (Py.lower provider = "openrouter")); [tauto |].
  destruct (decide (Py.lower provider = "huggingface")); [tauto |].
  discriminate.
Qed.

(** X23. Whenever [generate_answer] returns, the sources of the answer are
    the urls of the contexts, one per context and in their order; and outside
    the openrouter branch neither a model name nor a finish-reason is
    reported. *)
Theorem generate_answer_record (W : World) (registry : ModelRegistry)
    (query : string) (contexts : list Search.SearchResult) (provider : string)
    (selected_model : option string) (a : Answer) :
  outcome (generate_answer W registry query contexts provider selected_model) = inr a →
  sources a = Search.url <$> contexts
  ∧ (Py.lower provider ≠ "openrouter" →
     model a = None ∧ answer_finish_reason a = None).
Proof.
  intros Ha.
  destruct (generate_answer_returns _ _ _ _ _ _ _ Ha) as (config & Hconfig & Hknown).
  rewrite !elem_of_cons, elem_of_nil in Hknown.
  destruct Hknown as [Hp | [Hp | [Hp | []]]]; rewrite Hp in Hconfig.
  - rewrite (generate_answer_openai _ _ _ _ _ _ _ Hp Hconfig) in Ha.
    cbv zeta in Ha. rewrite generate_openai_run in Ha. cbv zeta in Ha.
    simpl in Ha. destruct (chat_create W _); [discriminate |].
    injection Ha as <-. by split.
  - rewrite (generate_answer_openrouter _ _ _ _ _ _ _ Hp Hconfig) in Ha.
    cbv zeta in Ha. rewrite generate_openrouter_run in Ha. cbv zeta in Ha.
    simpl in Ha. destruct (chat_create W _); [discriminate |]. simpl in Ha.
    destruct (evaluate_metrics W _ _); [discriminate |].
    injection Ha as <-. split; [reflexivity | done].
  - rewrite (generate_answer_huggingface _ _ _ _ _ _ _ Hp Hconfig) in Ha.
    cbv zeta in Ha. rewrite generate_huggingface_run in Ha. cbv zeta in Ha.
    simpl in Ha. destruct (chat_create W _); [discriminate |].
    injection Ha as <-. by split.
Qed.

Lemma generate_answer_record_witness :
  let W := hello_world (Some "length") None (inr ()) in
  let a := mkAnswer "Hello" [] None None in
  sources a = Search.url <$> []
  ∧ (Py.lower "HuggingFace" ≠ "openrouter" →
     model a = None ∧ answer_finish_reason a = None).
Proof.
  intros W a.
  apply (generate_answer_record W MODEL_REGISTRY "query" [] "HuggingFace" None a).
  vm_compute. reflexivity.
Defined.

(** X24. A failure of the backend call reaches the caller of
    [generate_answer] unchanged for every registered provider, and then
    nothing is handed to the evaluation. *)
Theorem generate_answer_propagates (W : World) (registry : ModelRegistry)
    (query : string) (contexts : list Search.SearchResult) (provider : string)
    (selected_model : option string) (config : ModelConfig) (e : PyExn) :
  get_config registry (Py.lower provider) = inr config →
  Py.lower provider ∈ ["openai"; "openrouter"; "huggingface"] →
  (∀ r, chat_create W r = inl e) →
  outcome (generate_answer W registry query contexts provider selected_model) = inl e
  ∧ evaluated (calls (generate_answer W registry query contexts provider
                        selected_model)) = [].
Proof.
  intros Hconfig Hknown HW.
  rewrite !elem_of_cons, elem_of_nil in Hknown.
  destruct Hknown as [Hp | [Hp | [Hp | []]]]; rewrite Hp in Hconfig.
  - rewrite (generate_answer_openai _ _ _ _ _ _ _ Hp Hconfig). cbv zeta.
    rewrite generate_openai_run. cbv zeta. simpl. by rewrite HW.
  - rewrite (generate_answer_openrouter _ _ _ _ _ _ _ Hp Hconfig). cbv zeta.
    rewrite generate_openrouter_run. cbv zeta. simpl. by rewrite HW.
  - rewrite (generate_answer_huggingface _ _ _ _ _ _ _ Hp Hconfig). cbv zeta.
    rewrite generate_huggingface_run. cbv zeta. simpl. by rewrite HW.
Qed.

Lemma generate_answer_propagates_witness :
  let W := mkWorld (λ _ q, q) (λ _, inl boom) (λ _, inl boom) (λ _ _, inr ()) in
  outcome (generate_answer W MODEL_REGISTRY "query" [] "OpenRouter" None) = inl boom
  ∧ evaluated (calls (generate_answer W MODEL_REGISTRY "query" [] "OpenRouter" None))
    = [].
Proof.
  intros W.
  apply (generate_answer_propagates W MODEL_REGISTRY "query" [] "OpenRouter" None
           (config_with "openai/gpt-oss-20b:free"
              ["cognitivecomputations/dolphin-mistral-24b-venice-edition:free";
               "nvidia/nemotron-nano-9b-v2:free"]) boom).
  - vm_compute. reflexivity.
  - vm_compute. apply list_elem_of_further, list_elem_of_here.
  - intros r. reflexivity.
Defined.

(** X25. The orchestrator relays: for each of the three providers the
    events of the adapter are a prefix of the events of the generator, in the
    same order; only the openrouter branch may add one event after them. *)
Theorem generator_extends_adapter (W : World) (provider prompt : string)
    (config : ModelConfig) (selected_model : option string) :
  yielded (stream_gen W provider "openai" prompt config selected_model)
    = yielded (stream_openai W prompt config)
  ∧ yielded (stream_gen W provider "huggingface" prompt config selected_model)
    = yielded (stream_huggingface W prompt config)
  ∧ yielded (stream_openrouter W prompt config selected_model)
    `prefix_of` yielded (stream_gen W provider "openrouter" prompt config
                           selected_model).
Proof.
  rewrite stream_gen_openai, stream_gen_huggingface, stream_gen_openrouter.
  cbv zeta. split; [reflexivity |]. split; [reflexivity |].
  destruct (outcome (stream_openrouter W prompt config selected_model)).
  - by apply prefix_app_r.
  - destruct (evaluate_metrics W _ prompt); simpl; [by apply prefix_app_r | done].
Qed.

Lemma default_registry_keys (k : string) (config : ModelConfig) :
  models MODEL_REGISTRY !! k = Some config →
  k = "openrouter" ∨ k = "huggingface".
Proof.
  unfold MODEL_REGISTRY. simpl.
  intros [[<- _] | [_ [[<- _] | [_ H]]%lookup_insert_Some]]%lookup_insert_Some;
    [by left | by right |].
  by rewrite lookup_empty in H.
Qed.

(** X26. With the default registry only the names that lowercase to
    "openrouter" or "huggingface" resolve; "openai" does not, so neither
    [generate_answer] nor the streaming generator ever sends a request through
    the OpenAI client. *)
Theorem default_registry_providers (W : World) (query : string)
    (contexts : list Search.SearchResult) (provider : string)
    (selected_model : option string) :
  ((∃ config, get_config MODEL_REGISTRY provider = inr config)
   ↔ Py.lower provider = "openrouter" ∨ Py.lower provider = "huggingface")
  ∧ Forall (λ e, ¬ sent_through async_openai_client e)
      (calls (generate_answer W MODEL_REGISTRY query contexts provider selected_model))
  ∧ (∀ g, get_streaming_function W MODEL_REGISTRY provider query contexts
            selected_model = inr g →
          Forall (λ e, ¬ sent_through async_openai_client e) (calls g)).
Proof.
  split; [| split].
  - rewrite get_config_lookup. split.
    + intros [config Hc].
      destruct (models MODEL_REGISTRY !! Py.lower provider) as [c|] eqn:Hl;
        [| discriminate].
      by apply default_registry_keys in Hl.
    + intros [-> | ->]; eexists; vm_compute; reflexivity.
  - destruct (get_config MODEL_REGISTRY (Py.lower provider)) as [e | config] eqn:Hc.
    + unfold generate_answer. cbv zeta. rewrite Hc. constructor.
    + pose proof Hc as Hl. apply get_config_lower in Hl.
      apply default_registry_keys in Hl as [Hp | Hp]; rewrite Hp in Hc.
      * rewrite (generate_answer_openrouter _ _ _ _ _ _ _ Hp Hc). cbv zeta.
        rewrite generate_openrouter_run. cbv zeta. simpl.
        destruct (chat_create W _); simpl; repeat constructor; simpl;
          first [discriminate | tauto].
      * rewrite (generate_answer_huggingface _ _ _ _ _ _ _ Hp Hc). cbv zeta.
        rewrite generate_huggingface_run. cbv zeta. simpl.
        repeat constructor. simpl. discriminate.
  - intros g. unfold get_streaming_function. cbv zeta.
    destruct (get_config MODEL_REGISTRY (Py.lower provider)) as [e | config] eqn:Hc;
      [discriminate |].
    intros [= <-]. pose proof Hc as Hl. apply get_config_lower in Hl.
    apply default_registry_keys in Hl as [Hp | Hp]; rewrite Hp.
    + rewrite stream_gen_openrouter, stream_openrouter_run. cbv zeta.
      destruct (chat_create_stream W _) as [e | s]; simpl.
      * repeat constructor. simpl. discriminate.
      * unfold stream_end. destruct (failure s); simpl.
        { repeat constructor. simpl. discriminate. }
        destruct (evaluate_metrics W _ _); simpl; repeat constructor; simpl;
          first [discriminate | tauto].
    + rewrite stream_gen_huggingface, stream_huggingface_run. cbv zeta.
      destruct (chat_create_stream W _); simpl; repeat constructor; simpl;
        discriminate.
Qed.

Lemma default_registry_providers_witness :
  let W := hello_world None None (inr ()) in
  ((∃ config, get_config MODEL_REGISTRY "OpenAI" = inr config)
   ↔ Py.lower "OpenAI" = "openrouter" ∨ Py.lower "OpenAI" = "huggingface")
  ∧ Forall (λ e, ¬ sent_through async_openai_client e)
      (calls (generate_answer W MODEL_REGISTRY "query" [] "OpenAI" None))
  ∧ (∀ g, get_streaming_function W MODEL_REGISTRY "OpenAI" "query" [] None = inr g →
          Forall (λ e, ¬ sent_through async_openai_client e) (calls g)).
Proof.
  intros W. apply (default_registry_providers W "query" [] "OpenAI" None).
Defined.

End OrchestratorProps.

(** ** The routes *)

Module RouteProps.
Import Search Registry Effects Providers Generation Protocol Routes Samples GenProps.

(** X27. Both generation routes query the vector store before the provider
    is looked up: for a provider that is not registered the route raises
    [ValueError] having made that one query and no call to a backend. *)
Theorem routes_retrieve_before_resolving (W : World) (index : Index)
    (registry : ModelRegistry) (ask : AskRequest) :
  models registry !! Py.lower (ask_provider ask) = None →
  ask_with_generation W index registry ask
    = ([QueryPoints (ask_query ask) (Z.max 1 (ask_limit ask) * 100)],
       inl (ValueError ("ModelConfig not found for provider: "
                        +:+ Py.lower (ask_provider ask))))
  ∧ ask_with_generation_stream W index registry ask
    = ([QueryPoints (ask_query ask) (Z.max 1 (ask_limit ask) * 100)],
       inl (ValueError ("ModelConfig not found for provider: "
                        +:+ Py.lower (ask_provider ask)))).
Proof.
  intros Hunknown. split.
  - unfold ask_with_generation, generate_answer. cbv zeta.
    rewrite get_config_lookup, lower_idemp, Hunknown. reflexivity.
  - unfold ask_with_generation_stream, get_streaming_function. cbv zeta.
    rewrite get_config_lookup, lower_idemp, Hunknown. reflexivity.
Qed.

Lemma routes_retrieve_before_resolving_witness :
  let W := hello_world None None (inr ()) in
  let ask := mkAsk "rag" None None None 5 "OpenAI" None in
  ask_with_generation W (λ _ _, sample_points) MODEL_REGISTRY ask
    = ([QueryPoints (ask_query ask) (Z.max 1 (ask_limit ask) * 100)],
       inl (ValueError ("ModelConfig not found for provider: "
                        +:+ Py.lower (ask_provider ask))))
  ∧ ask_with_generation_stream W (λ _ _, sample_points) MODEL_REGISTRY ask
    = ([QueryPoints (ask_query ask) (Z.max 1 (ask_limit ask) * 100)],
       inl (ValueError ("ModelConfig not found for provider: "
                        +:+ Py.lower (ask_provider ask)))).
Proof.
  intros W ask.
  apply (routes_retrieve_before_resolving W (λ _ _, sample_points) MODEL_REGISTRY ask).
  vm_compute. reflexivity.
Defined.

End RouteProps.

(** ** The streaming client of the frontend *)

Module ClientProps.
Import Effects Generation Frontend ClientVocabulary GenProps.

(** No string starts with both the error and the model marker. *)
Lemma markers_disjoint chunk :
  PyText.startswith chunk "__error__" = true →
  PyText.startswith chunk "__model_used__:" = true → False.
Proof.
  unfold PyText.startswith.
  destruct chunk as [|a [|b [|c s]]]; cbn [String.prefix].
  - discriminate.
  - destruct (ascii_dec "_" a); discriminate.
  - destruct (ascii_dec "_" a); [| discriminate].
    destruct (ascii_dec "_" b); discriminate.
  - destruct (ascii_dec "_" a); [| discriminate].
    destruct (ascii_dec "_" b); [| discriminate].
    destruct (ascii_dec "e" c) as [<- |]; [| discriminate].
    destruct (ascii_dec "m" "e"); discriminate.
Qed.

(** How the loop treats one chunk, by the kind of the chunk. *)
Lemma call_ai_loop_empty chunk rest rf acc :
  Py.truthy chunk = false →
  call_ai_loop (chunk :: rest) rf acc = call_ai_loop rest rf acc.
Proof. intros H. cbn [call_ai_loop]. by rewrite H. Qed.

Lemma call_ai_loop_plain chunk rest rf acc :
  is_plain chunk = true →
  call_ai_loop (chunk :: rest) rf acc
  = ("text", acc +:+ chunk) :: call_ai_loop rest rf (acc +:+ chunk).
Proof.
  unfold is_plain. intros H. cbn [call_ai_loop].
  destruct (Py.truthy chunk); [| discriminate].
  destruct (PyText.startswith chunk "__model_used__:"); [discriminate |].
  destruct (PyText.startswith chunk "__error__"); [discriminate |].
  destruct (PyText.startswith chunk "__truncated__"); [discriminate |].
  reflexivity.
Qed.

Lemma call_ai_loop_error chunk rest rf acc :
  is_error_chunk chunk = true →
  call_ai_loop (chunk :: rest) rf acc
  = [("error", "Request failed. Please try again later.")].
Proof.
  unfold is_error_chunk. intros H. cbn [call_ai_loop].
  destruct (Py.truthy chunk); [| discriminate].
  destruct (PyText.startswith chunk "__error__") eqn:He; [| discriminate].
  destruct (PyText.startswith chunk "__model_used__:") eqn:Hm; [| reflexivity].
  (* no string starts with both markers *)
  exfalso. exact (markers_disjoint chunk He Hm).
Qed.

(** A chunk that is neither empty, plain nor an error chunk adds one event
    that is neither a text nor an error, and leaves [answer_text] alone. *)
Lemma call_ai_loop_marker chunk rest rf acc :
  Py.truthy chunk = true → is_plain chunk = false → is_error_chunk chunk = false →
  ∃ ev, ev.1 ≠ "text" ∧ ev.1 ≠ "error"
        ∧ call_ai_loop (chunk :: rest) rf acc = ev :: call_ai_loop rest rf acc.
Proof.
  unfold is_plain, is_error_chunk. intros Ht Hp He. cbn [call_ai_loop].
  rewrite Ht in *. simpl in *.
  destruct (PyText.startswith chunk "__model_used__:").
  { eexists. split; [| split; [| reflexivity]]; discriminate. }
  simpl in *. rewrite He in *. simpl in *.
  destruct (PyText.startswith chunk "__truncated__"); [| discriminate].
  eexists. split; [| split; [| reflexivity]]; discriminate.
Qed.

Lemma call_ai_loop_error_last chunks rf acc :
  ∃ body, Forall (λ ev, ev.1 ≠ "error") body
          ∧ (call_ai_loop chunks rf acc = body
             ∨ ∃ msg, call_ai_loop chunks rf acc = body ++ [("error", msg)]).
Proof.
  revert acc. induction chunks as [|chunk rest IH]; intros acc.
  - exists []. split; [constructor |]. simpl.
    destruct rf; [right; eexists; reflexivity | by left].
  - destruct (Py.truthy chunk) eqn:Ht.
    2:{ rewrite call_ai_loop_empty by done. apply IH. }
    destruct (is_error_chunk chunk) eqn:He.
    { rewrite call_ai_loop_error by done. exists []. split; [constructor |].
      right. eexists. reflexivity. }
    destruct (is_plain chunk) eqn:Hp.
    + rewrite call_ai_loop_plain by done.
      destruct (IH (acc +:+ chunk)) as (body & Hbody & Hcase).
      exists (("text", acc +:+ chunk) :: body).
      split; [constructor; [discriminate | exact Hbody] |].
      destruct Hcase as [-> | [msg ->]]; [by left | right; eauto].
    + destruct (call_ai_loop_marker chunk rest rf acc Ht Hp He)
        as (ev & Hnt & Hne & ->).
      destruct (IH acc) as (body & Hbody & Hcase).
      exists (ev :: body). split; [constructor; [exact Hne | exact Hbody] |].
      destruct Hcase as [-> | [msg ->]]; [by left | right; eauto].
Qed.

(** X28. The client never yields anything after an error event, and yields
    at most one: whatever is received, the error event can only be the last
    event. *)
Theorem client_error_is_last (r : Response) :
  ∃ body, Forall (λ ev, ev.1 ≠ "error") body
          ∧ (call_ai_streaming r = body
             ∨ ∃ msg, call_ai_streaming r = body ++ [("error", msg)]).
Proof.
  unfold call_ai_streaming. destruct (request_failure r) as [e|].
  - exists []. split; [constructor |]. right. eexists. reflexivity.
  - apply call_ai_loop_error_last.
Qed.

Lemma text_contents_loop chunks rf acc :
  text_contents (call_ai_loop chunks rf acc)
  = running acc (filter (λ c, is_plain c = true) (before_error chunks)).
Proof.
  revert acc. induction chunks as [|chunk rest IH]; intros acc.
  - simpl. by destruct rf.
  - cbn [before_error].
    destruct (Py.truthy chunk) eqn:Ht.
    2:{ rewrite call_ai_loop_empty by done.
        assert (He : is_error_chunk chunk = false)
          by (unfold is_error_chunk; by rewrite Ht).
        assert (Hp : is_plain chunk = false) by (unfold is_plain; by rewrite Ht).
        rewrite He, filter_cons, decide_False by congruence. apply IH. }
    destruct (is_error_chunk chunk) eqn:He.
    { rewrite call_ai_loop_error by done. reflexivity. }
    rewrite filter_cons.
    destruct (is_plain chunk) eqn:Hp.
    + rewrite call_ai_loop_plain, decide_True by done.
      cbn [running]. unfold text_contents in *. cbn [omap list_omap fst snd].
      rewrite decide_True by reflexivity. by rewrite IH.
    + rewrite decide_False by congruence.
      destruct (call_ai_loop_marker chunk rest rf acc Ht Hp He)
        as (ev & Hnt & _ & ->).
      unfold text_contents in *. cbn [omap list_omap].
      rewrite decide_False by exact Hnt. apply IH.
Qed.

Lemma client_text_is_cumulative_core (chunks : list string) :
  text_contents (call_ai_streaming (mkResponse None chunks None))
  = running "" (filter (λ c, is_plain c = true) (before_error chunks)).
Proof. apply text_contents_loop. Qed.

(** X29. The text events are cumulative: the contents of the "text" events
    are the running concatenations of the plain chunks received before the
    first error chunk, so each one repeats the previous one and appends the
    new chunk. *)
Theorem client_text_is_cumulative (r : Response) :
  request_failure r = None →
  text_contents (call_ai_streaming r)
  = running "" (filter (λ c, is_plain c = true) (before_error (received r))).
Proof.
  intros Hok. unfold call_ai_streaming. rewrite Hok. apply text_contents_loop.
Qed.

Lemma client_text_is_cumulative_witness :
  let r := mkResponse None ["__model_used__:m"; "Hel"; ""; "lo"; "__error__"; "x"]
             None in
  text_contents (call_ai_streaming r)
  = running "" (filter (λ c, is_plain c = true) (before_error (received r))).
Proof.
  intros r. apply (client_text_is_cumulative r). reflexivity.
Defined.

Example client_text_sample :
  text_contents (call_ai_streaming
                   (mkResponse None ["__model_used__:m"; "Hel"; ""; "lo";
                                     "__error__"; "x"] None))
  = ["Hel"; "Hello"].
Proof. vm_compute. reflexivity. Qed.

(** *** Reading back what the generator wrote *)

Lemma running_last acc l :
  default acc (last (running acc l)) = foldl String.append acc l.
Proof.
  revert acc. induction l as [|x rest IH]; intros acc; [reflexivity |].
  cbn [running foldl]. rewrite last_cons.
  specialize (IH (acc +:+ x)).
  destruct (last (running (acc +:+ x) rest)); exact IH.
Qed.

Lemma foldl_append_text acc events :
  Forall reads_back events →
  foldl String.append acc
    (filter (λ c, is_plain c = true) (before_error (wire <$> events)))
  = acc +:+ text_of events.
Proof.
  intros Hall. revert acc.
  induction Hall as [|e events He _ IH]; intros acc.
  - simpl. by rewrite string_app_nil_r.
  - rewrite fmap_cons. cbn [before_error].
    destruct e as [content | m | |]; simpl in He.
    + assert (Herr : is_error_chunk content = false).
      { unfold is_plain, is_error_chunk in *.
        destruct (Py.truthy content); [| discriminate].
        destruct (PyText.startswith content "__error__"); [| reflexivity].
        simpl in He. by rewrite andb_false_r in He. }
      cbn [wire]. rewrite Herr, filter_cons, decide_True by exact He.
      cbn [foldl text_of]. by rewrite IH, string_app_assoc.
    + change (is_error_chunk (wire (ModelSelected m))) with false. cbv iota.
      rewrite filter_cons, decide_False; [apply IH |].
      intros H. destruct m; discriminate H.
    + change (is_error_chunk (wire Truncated)) with false. cbv iota.
      rewrite filter_cons, decide_False; [apply IH |].
      intros H. change (false = true) in H. discriminate H.
    + destruct He.
Qed.

(** X30. The client reads back what the generator wrote: when the chunks
    received are the strings of a sequence of events without [Error], whose
    fragments do not look like markers, the text on screen at the end is the
    concatenation of the [Text] events. *)
Theorem client_reads_back_text (events : list CompletionEvent) :
  Forall reads_back events →
  final_text (call_ai_streaming (mkResponse None (wire <$> events) None))
  = text_of events.
Proof.
  intros Hall. unfold final_text.
  fold (text_contents (call_ai_streaming (mkResponse None (wire <$> events) None))).
  rewrite client_text_is_cumulative_core.
  rewrite running_last, foldl_append_text by exact Hall. reflexivity.
Qed.

Lemma client_reads_back_text_witness :
  final_text (call_ai_streaming
                (mkResponse None
                   (wire <$> [ModelSelected "served/model"; Text "Hel"; Text "lo";
                              Truncated]) None))
  = text_of [ModelSelected "served/model"; Text "Hel"; Text "lo"; Truncated].
Proof.
  apply (client_reads_back_text
           [ModelSelected "served/model"; Text "Hel"; Text "lo"; Truncated]).
  repeat constructor.
Defined.

End ClientProps.
